(** * gdeltPyR: date resolution ([gdelt/dateFuncs.py]) and the download
    pipeline ([gdelt/base.py]), embedded as executable definitions.

    Python values are modelled by the data they carry: [str] as [string],
    [int] as [Z], [datetime.date] and [datetime.datetime] as records of
    integer fields, a raised exception as the [Raise] branch of [result]. *)

From stdpp Require Import base numbers list strings gmap.
From Stdlib Require Import Ascii.

Local Open Scope Z_scope.

(** ** Exceptions *)

Inductive exn :=
| ValueError (msg : string)
| AttributeError (msg : string)
| NameError (name : string)
| KeyError (msg : string)
| IndexError (msg : string)
| TypeError (msg : string)
| BaseException (msg : string)
| Exception (msg : string).

Inductive result (A : Type) :=
| Ok (a : A)
| Raise (e : exn).
Arguments Ok {A} a.
Arguments Raise {A} e.

#[global] Instance result_ret : MRet result := fun A a => Ok a.

#[global] Instance result_bind : MBind result := fun A B f m =>
  match m with
  | Ok a => f a
  | Raise e => Raise e
  end.

(** [list(map(f, l))] where [f] may raise: the first exception wins. *)
Fixpoint result_map {A B} (f : A -> result B) (l : list A) : result (list B) :=
  match l with
  | [] => Ok []
  | x :: l' =>
      y ← f x;
      ys ← result_map f l';
      Ok (y :: ys)
  end.

Definition is_raise {A} (r : result A) : Prop :=
  match r with
  | Ok _ => False
  | Raise _ => True
  end.

(** ** Decimal text *)

(** The character of a decimal digit, and the digit of a character. *)
Definition digit (n : Z) : ascii := ascii_of_nat (48 + Z.to_nat n).

Definition digit_val (c : ascii) : option Z :=
  let n := Z.of_nat (nat_of_ascii c) in
  if (48 <=? n) && (n <=? 57) then Some (n - 48) else None.

(** ["%02d"] and ["%04d"]. *)
Definition zpad2 (n : Z) : string :=
  String (digit (n / 10)) (String (digit (n mod 10)) EmptyString).

Definition zpad4 (n : Z) : string :=
  String (digit (n / 1000))
    (String (digit (n / 100 mod 10)) (zpad2 (n mod 100))).

(** [str(n)] for a non-negative [int]. *)
Fixpoint str_digits (fuel : nat) (n : Z) (acc : string) : string :=
  match fuel with
  | O => acc
  | S fuel' =>
      let acc' := String (digit (n mod 10)) acc in
      if n / 10 =? 0 then acc' else str_digits fuel' (n / 10) acc'
  end.

Definition str_int (n : Z) : string := str_digits 20 n EmptyString.

(** [int(s)] for a string of decimal digits. *)
Fixpoint int_digits (s : string) (acc : Z) : option Z :=
  match s with
  | EmptyString => Some acc
  | String c s' =>
      match digit_val c with
      | Some d => int_digits s' (10 * acc + d)
      | None => None
      end
  end.

Definition int_str (s : string) : option Z :=
  match s with
  | EmptyString => None
  | _ => int_digits s 0
  end.

(** [s[:n]]. *)
Fixpoint str_take (n : nat) (s : string) : string :=
  match n, s with
  | S n', String c s' => String c (str_take n' s')
  | _, _ => EmptyString
  end.

(** ** Calendar: [datetime.date] and [datetime.datetime] *)

Record date := mkdate { year : Z; month : Z; day : Z }.

Record datetime := mkdt { dt_date : date; hour : Z; minute : Z; second : Z }.

Definition date_eqb (a b : date) : bool :=
  (year a =? year b) && (month a =? month b) && (day a =? day b).

(** [datetime.datetime.combine(d, datetime.time.min)]. *)
Definition midnight (d : date) : datetime := mkdt d 0 0 0.

(** [dt.replace(minute=m, second=0)]. *)
Definition replace_minute (dt : datetime) (m : Z) : datetime :=
  mkdt (dt_date dt) (hour dt) m 0.

Definition is_leap (y : Z) : bool :=
  (y mod 4 =? 0) && (negb (y mod 100 =? 0) || (y mod 400 =? 0)).

Definition days_in_month (y m : Z) : Z :=
  if m =? 2 then (if is_leap y then 29 else 28)
  else if (m =? 4) || (m =? 6) || (m =? 9) || (m =? 11) then 30
  else 31.

Definition days_before_month (y m : Z) : Z :=
  (if m =? 1 then 0 else if m =? 2 then 31 else if m =? 3 then 59
   else if m =? 4 then 90 else if m =? 5 then 120 else if m =? 6 then 151
   else if m =? 7 then 181 else if m =? 8 then 212 else if m =? 9 then 243
   else if m =? 10 then 273 else if m =? 11 then 304 else 334)
  + (if (2 <? m) && is_leap y then 1 else 0).

Definition days_before_year (y : Z) : Z :=
  (y - 1) * 365 + (y - 1) / 4 - (y - 1) / 100 + (y - 1) / 400.

(** [d.toordinal()]: day 1 is 0001-01-01. *)
Definition toordinal (d : date) : Z :=
  days_before_year (year d) + days_before_month (year d) (month d) + day d.

(** [(b - a).days] for two dates. *)
Definition days_between (a b : date) : Z := toordinal b - toordinal a.

(** A [datetime64[D]] value is the count of days since 1970-01-01. *)
Definition epoch : date := mkdate 1970 1 1.

Definition datetime64_D (d : date) : Z := toordinal d - 719163.

Definition next_day (d : date) : date :=
  if day d <? days_in_month (year d) (month d)
  then mkdate (year d) (month d) (day d + 1)
  else if month d <? 12 then mkdate (year d) (month d + 1) 1
  else mkdate (year d + 1) 1 1.

Definition prev_day (d : date) : date :=
  if 1 <? day d then mkdate (year d) (month d) (day d - 1)
  else if 1 <? month d
       then mkdate (year d) (month d - 1) (days_in_month (year d) (month d - 1))
       else mkdate (year d - 1) 12 31.

(** [np.datetime64(n, 'D').tolist()]: the date [n] days from the epoch. *)
Definition date_of_days (n : Z) : date :=
  if 0 <=? n then Nat.iter (Z.to_nat n) next_day epoch
  else Nat.iter (Z.to_nat (- n)) prev_day epoch.

Definition valid_date (d : date) : Prop :=
  1 <= month d <= 12 /\ 1 <= day d <= days_in_month (year d) (month d).

Definition valid_dateb (d : date) : bool :=
  (1 <=? month d) && (month d <=? 12) && (1 <=? day d)
  && (day d <=? days_in_month (year d) (month d)).

(** Dates whose ["%Y"] rendering has exactly four digits. *)
Definition date_ok (d : date) : Prop :=
  valid_date d /\ 1000 <= year d <= 9999.

Definition time_ok (dt : datetime) : Prop :=
  0 <= hour dt < 24 /\ 0 <= minute dt < 60 /\ 0 <= second dt < 60.

Definition dt_ok (dt : datetime) : Prop := date_ok (dt_date dt) /\ time_ok dt.

(** Chronological order of [datetime] values ([<] and [>=] in Python),
    through the number of seconds since 0001-01-01. *)
Definition seconds_of (dt : datetime) : Z :=
  ((toordinal (dt_date dt) * 24 + hour dt) * 60 + minute dt) * 60 + second dt.

Definition dt_ltb (a b : datetime) : bool := seconds_of a <? seconds_of b.
Definition dt_geb (a b : datetime) : bool := seconds_of b <=? seconds_of a.

(** ** Renderings *)

(** [d.strftime("%Y-%m-%d")]. *)
Definition strftime_ymd (d : date) : string :=
  zpad4 (year d) +:+ "-" +:+ zpad2 (month d) +:+ "-" +:+ zpad2 (day d).

(** [dt.strftime('%Y%m%d%H%M%S')]. *)
Definition strftime (dt : datetime) : string :=
  zpad4 (year (dt_date dt)) +:+ zpad2 (month (dt_date dt))
  +:+ zpad2 (day (dt_date dt)) +:+ zpad2 (hour dt) +:+ zpad2 (minute dt)
  +:+ zpad2 (second dt).

(** [str(dt)] of a datetime without microseconds. *)
Definition str_datetime (dt : datetime) : string :=
  strftime_ymd (dt_date dt) +:+ " " +:+ zpad2 (hour dt) +:+ ":"
  +:+ zpad2 (minute dt) +:+ ":" +:+ zpad2 (second dt).

(** ** Date inputs and the arrays handed between the two functions *)

(** The [date] argument of [Search]: a [str] or a [list] of [str]. *)
Inductive DateSpec :=
| DStr (s : string)
| DList (l : list string).

(** What [dateRanger] returns: a 0-d array holding a [str], a 0-d array
    holding a [datetime], or a 1-d array of [datetime]. *)
Inductive ndarray :=
| ArrStr (s : string)
| ArrDt (e : datetime)
| ArrList (l : list datetime).

(** What [gdeltRangeString] returns: one [str], an [np.array] of [str], or
    a [list] of [str]. *)
Inductive stamps :=
| One (s : string)
| Arr (l : list string)
| Lst (l : list string).

(** The number written by two, and by four, decimal digits. *)
Definition num2 (a b : ascii) : option Z :=
  x ← digit_val a; y ← digit_val b; Some (10 * x + y).

Definition num4 (a b c d : ascii) : option Z :=
  x ← num2 a b; y ← num2 c d; Some (100 * x + y).

(** [np.datetime64] read from a ["YYYY-MM-DD"] string, as [np.arange] does
    with [dtype='datetime64[D]']. *)
Definition np_datetime64 (s : string) : result Z :=
  match String.list_ascii_of_string s with
  | [y1; y2; y3; y4; "-"%char; m1; m2; "-"%char; d1; d2] =>
      match num4 y1 y2 y3 y4, num2 m1 m2, num2 d1 d2 with
      | Some y, Some m, Some d =>
          if valid_dateb (mkdate y m d) then Ok (datetime64_D (mkdate y m d))
          else Raise (ValueError "Day out of range in datetime string")
      | _, _, _ => Raise (ValueError "Error parsing datetime string")
      end
  | _ => Raise (ValueError "Error parsing datetime string")
  end.

(** The 96 quarter-hour labels ["00:00"], ["00:15"], ..., ["23:45"], built
    as both functions build their [times] list. *)
Definition times : list string :=
  let minutes := str_int <$> [0; 15; 30; 45] in
  let hours := str_int <$> seqZ 0 24 in
  l ← hours;
  let l := if bool_decide (default 0 (int_str l) < 10) then "0" +:+ l else l in
  k ← minutes;
  let k := if bool_decide (k = "0"%string) then "00"%string else k in
  [l +:+ ":" +:+ k].

Section Resolver.

(** [dateutil.parser.parse]; [None] stands for the exception it raises on
    text that is not a date. *)
Variable parse : string -> option datetime.

(** [datetime.datetime.now()], read once per call. *)
Variable now : datetime.

Definition parse_raising (s : string) : result datetime :=
  match parse s with
  | Some dt => Ok dt
  | None => Raise (ValueError "Unknown string format")
  end.

(** [parse_date]: the parsed datetime, or the message string when the
    parser raises. *)
Definition parse_date (var : string) : ndarray :=
  match parse var with
  | Some dt => ArrDt dt
  | None => ArrStr "You entered an incorrect date.  Check your date format."
  end.

Definition dateFormatter (datearray : string) : result string :=
  dt ← parse_raising datearray;
  Ok (strftime_ymd (dt_date dt)).

(** [np.vectorize(f)(l).tolist()]. *)
Definition np_vectorize (f : string -> result string) (l : list string)
  : result (list string) :=
  match l with
  | [] => Raise (ValueError "cannot call `vectorize` on size 0 inputs unless `otypes` is set")
  | _ => result_map f l
  end.

Definition dateRanger (originalArray : DateSpec) : result ndarray :=
  match originalArray with
  | DStr s =>
      Ok (if bool_decide (String.length s = 0%nat) then ArrStr "crazy"
          else parse_date s)
  | DList l =>
      if bool_decide (length l = 1%nat) then
        dt ← parse_raising (String.concat "" l);
        Ok (ArrDt dt)
      else if bool_decide (2 < length l)%nat then
        ds ← result_map parse_raising l;
        Ok (ArrList ds)
      else
        converted ← np_vectorize dateFormatter l;
        start ← np_datetime64 (default ""%string (converted !! 0%nat));
        stop ← np_datetime64 (default ""%string (converted !! 1%nat));
        let dates : list datetime :=
          (fun n => midnight (date_of_days n)) <$> seqZ start (stop - start) in
        if bool_decide (length l = 2%nat) then
          adder ← parse_raising (default ""%string (converted !! 1%nat));
          (* numpy range is not endpoint inclusive *)
          Ok (ArrList (dates ++ [midnight (dt_date adder)]))
        else Ok (ArrList dates)
  end.

(** One quarter-hour file stamp of the day of [element]:
    [parse(str(element) + " " + x).strftime('%Y%m%d%H%M%S')]. *)
Definition quarter_stamp (element : datetime) (x : string) : result string :=
  dt ← parse_raising (str_datetime element +:+ " " +:+ x);
  Ok (strftime dt).

(** [combine(x, time.min) + timedelta(minutes=45, hours=23)]. *)
Definition end_of_day (x : datetime) : datetime := mkdt (dt_date x) 23 45 0.

(** The version 1 file identifier of one timestamp string. *)
Definition v1_truncate (version : Z) (x : string) : result string :=
  px ← parse_raising x;
  d2013 ← parse_raising "2013 04 01";
  d2006 ← parse_raising "2006 01 01";
  Ok (if dt_geb px d2013 then str_take 8 (strftime px)
      else if dt_ltb px d2006 && (version =? 1) then str_take 4 (strftime px)
      else str_take 6 (strftime px)).

(** The "Version 1 Datestrings" section of [gdeltRangeString]. *)
Definition v1_datestrings (version : Z) (converted : stamps)
  : result stamps :=
  if version =? 1 then
    match converted with
    | Lst l =>
        l' ← result_map (v1_truncate version) l;
        (* account for duplicates *)
        Ok (Lst (elements (list_to_set l' : gset string)))
    | One s =>
        s' ← v1_truncate version s;
        Ok (One s')
    | Arr _ => Raise (TypeError "Parser must be a string or character stream")
    end
  else Ok converted.

Definition gdeltRangeString (element : ndarray) (coverage : bool)
  (version : Z) : result stamps :=
  let hour_now := hour now in
  let multiplier := minute now / 15 in
  let multiple := 15 * multiplier in
  let conditioner := multiplier + 1 in
  converted ←
    match element with
    | ArrStr _ => Raise (AttributeError "'str' object has no attribute 'date'")
    | ArrDt element =>
        if date_eqb (dt_date element) (dt_date now) then
          if coverage && negb (version =? 1) then
            l ← result_map (quarter_stamp element)
                  (take (Z.to_nat (hour_now * 4 + conditioner)) times);
            Ok (Arr l)
          else Ok (One (strftime (replace_minute now multiple)))
        else
          if coverage && negb (version =? 1) then
            l ← result_map (quarter_stamp element) times;
            Ok (Arr l)
          else Ok (One (strftime (replace_minute element multiple)))
    | ArrList element =>
        let converted : list string :=
          (fun x => strftime (end_of_day x)) <$> element in
        if coverage && negb (version =? 1) then
          ls ← result_map (fun i => result_map (quarter_stamp i) times) element;
          match ls with
          | [] => Raise (ValueError "need at least one array to concatenate")
          | _ => Ok (Arr (concat ls))
          end
        else Ok (Lst converted)
    end;
  v1_datestrings version converted.

(** The advisory [warnings.warn] of the coverage expansion of a list. *)
Definition gdeltRangeString_warns (element : ndarray) (coverage : bool)
  (version : Z) : bool :=
  match element with
  | ArrList element =>
      coverage && negb (version =? 1)
      && bool_decide (5 * 192 <= length element * 96)%nat
  | _ => false
  end.

End Resolver.

(** ** What the resolver needs of the date parser *)

(** The readings of [dateutil.parser.parse] on the strings this module
    itself builds and passes back to it. *)
Record parse_spec (parse : string -> option datetime) : Prop := {
  (* a 14-digit stamp reads back as the instant it renders *)
  parse_stamp : forall dt, dt_ok dt -> parse (strftime dt) = Some dt;
  (* "YYYY-MM-DD" *)
  parse_ymd : forall d, date_ok d -> parse (strftime_ymd d) = Some (midnight d);
  (* "YYYY-MM-DD 00:00:00 HH:MM": the later time of day wins *)
  parse_quarter : forall d h m,
    date_ok d -> 0 <= h < 24 -> 0 <= m < 60 ->
    parse (str_datetime (midnight d) +:+ " " +:+ zpad2 h +:+ ":" +:+ zpad2 m)
    = Some (mkdt d h m 0);
  parse_2013 : parse "2013 04 01" = Some (midnight (mkdate 2013 4 1));
  parse_2006 : parse "2006 01 01" = Some (midnight (mkdate 2006 1 1))
}.

(** A reader of the fixed-width formats above, standing for the parser
    where a concrete one is needed: ["YYYYMMDDhhmmss"], ["YYYY-MM-DD"]
    (also with spaces or slashes), ["YYYY-MM-DD hh:mm:ss"] and
    ["YYYY-MM-DD hh:mm:ss hh:mm"]. *)
Definition checked_datetime (y m d h mi s : Z) : option datetime :=
  if valid_dateb (mkdate y m d) && (1 <=? y) && (y <=? 9999)
     && (h <? 24) && (mi <? 60) && (s <? 60)
  then Some (mkdt (mkdate y m d) h mi s)
  else None.

Definition is_sep (c : ascii) : bool :=
  bool_decide (c = "-"%char) || bool_decide (c = " "%char)
  || bool_decide (c = "/"%char).

Definition is_char (c x : ascii) : bool := bool_decide (c = x).

Definition parse_model (s : string) : option datetime :=
  match String.list_ascii_of_string s with
  | [y1; y2; y3; y4; m1; m2; d1; d2; h1; h2; i1; i2; s1; s2] =>
      y ← num4 y1 y2 y3 y4; m ← num2 m1 m2; d ← num2 d1 d2;
      h ← num2 h1 h2; mi ← num2 i1 i2; s ← num2 s1 s2;
      checked_datetime y m d h mi s
  | [y1; y2; y3; y4; p; m1; m2; q; d1; d2] =>
      if is_sep p && is_sep q then
        y ← num4 y1 y2 y3 y4; m ← num2 m1 m2; d ← num2 d1 d2;
        checked_datetime y m d 0 0 0
      else None
  | [y1; y2; y3; y4; p; m1; m2; q; d1; d2; sp; h1; h2; c1; i1; i2; c2; s1; s2] =>
      if is_sep p && is_sep q && is_char " " sp && is_char ":" c1
         && is_char ":" c2 then
        y ← num4 y1 y2 y3 y4; m ← num2 m1 m2; d ← num2 d1 d2;
        h ← num2 h1 h2; mi ← num2 i1 i2; s ← num2 s1 s2;
        checked_datetime y m d h mi s
      else None
  | [y1; y2; y3; y4; p; m1; m2; q; d1; d2; sp; h1; h2; c1; i1; i2; c2; s1; s2;
     sp'; h1'; h2'; c3; i1'; i2'] =>
      if is_sep p && is_sep q && is_char " " sp && is_char ":" c1
         && is_char ":" c2 && is_char " " sp' && is_char ":" c3 then
        y ← num4 y1 y2 y3 y4; m ← num2 m1 m2; d ← num2 d1 d2;
        _ ← num2 h1 h2; _ ← num2 i1 i2; _ ← num2 s1 s2;
        h ← num2 h1' h2'; mi ← num2 i1' i2';
        checked_datetime y m d h mi 0
      else None
  | _ => None
  end.


(** ** Tables: the part of [pandas.DataFrame] that [Search] uses *)

(** A cell or a label. *)
Inductive value :=
| VInt (n : Z)
| VStr (s : string)
| VNaN.

#[global] Instance value_eq_dec : EqDecision value.
Proof. solve_decision. Defined.

Record DataFrame := mkdf {
  columns : list value;
  index : list Z;
  rows : list (list value)
}.

(** [len(df)]. *)
Definition df_len (df : DataFrame) : nat := length (rows df).

(** The cell of [row] under label [c], [NaN] where the frame has no such
    column. *)
Definition cell_at (cols : list value) (row : list value) (c : value) : value :=
  default VNaN (i ← fst <$> list_find (fun x => x = c) cols; row !! i).

Definition union_columns (dfs : list DataFrame) : list value :=
  foldl (fun acc df => acc ++ filter (fun c => c ∉ acc) (columns df)) [] dfs.

(** [pd.concat(dfs)]: rows one after the other, each frame keeping its own
    row labels, columns aligned by label. *)
Definition pd_concat (dfs : list DataFrame) : result DataFrame :=
  match dfs with
  | [] => Raise (ValueError "No objects to concatenate")
  | _ =>
      let cols := union_columns dfs in
      Ok (mkdf cols
            (df ← dfs; index df)
            (df ← dfs; (fun row => cell_at (columns df) row <$> cols) <$> rows df))
  end.

(** [df.reset_index(drop=True, inplace=True)]. *)
Definition reset_index (df : DataFrame) : DataFrame :=
  mkdf (columns df) (seqZ 0 (Z.of_nat (df_len df))) (rows df).

(** [df.columns = cols]. *)
Definition set_columns (df : DataFrame) (cols : list value) : result DataFrame :=
  if bool_decide (length cols = length (columns df))
  then Ok (mkdf cols (index df) (rows df))
  else Raise (ValueError "Length mismatch")%string.

(** [df.ix[0].values.tolist()]: the row labelled 0 (row labels are unique
    in the frames that reach it). *)
Definition ix0 (df : DataFrame) : result (list value) :=
  match list_find (fun i => i = 0) (index df) with
  | Some (p, _) =>
      match rows df !! p with
      | Some row => Ok row
      | None => Raise (KeyError "0")
      end
  | None => Raise (KeyError "0")
  end.

(** [df.drop([0], inplace=True)]. *)
Definition drop0 (df : DataFrame) : result DataFrame :=
  if bool_decide (0 ∈ index df) then
    let kept := filter (fun ir => ir.1 ≠ 0) (zip (index df) (rows df)) in
    Ok (mkdf (columns df) kept.*1 kept.*2)
  else Raise (KeyError "[0] not found in axis").

(** [df.<name>]: the cells of the column called [name]. *)
Definition column (name : string) (df : DataFrame) : result (list value) :=
  match list_find (fun c => c = VStr name) (columns df) with
  | Some (p, _) => Ok ((fun row => default VNaN (row !! p)) <$> rows df)
  | None => Raise (AttributeError "'DataFrame' object has no attribute")
  end.

(** [l.insert(loc, x)] on one list. *)
Definition insert_at {A} (loc : nat) (x : A) (l : list A) : list A :=
  take loc l ++ x :: drop loc l.

(** [df.insert(loc, name, value=vals)]. *)
Definition df_insert (loc : nat) (name : string) (vals : list value)
  (df : DataFrame) : result DataFrame :=
  if bool_decide (VStr name ∈ columns df) then
    Raise (ValueError "cannot insert, already exists")
  else if bool_decide (length (columns df) < loc)%nat then
    Raise (IndexError "index is out of bounds")
  else
    Ok (mkdf (insert_at loc (VStr name) (columns df)) (index df)
          (zip_with (fun row v => insert_at loc v row) (rows df) vals)).

(** ** Effects of a query *)

(** A call of the worker in the calling process, on one URL or on a whole
    download list, the life of a worker pool, and a URL handed to the
    pool. *)
Inductive event :=
| Inline (url : string)
| InlineSeq (download_list : stamps)
| PoolOpen
| Pooled (url : string)
| PoolClose.

(** A computation that records events and may raise. *)
Definition M (A : Type) : Type := (list event * result A)%type.

#[global] Instance M_ret : MRet M := fun A a => ([], Ok a).

#[global] Instance M_bind : MBind M := fun A B f m =>
  match m with
  | (t, Ok a) => let '(t', r) := f a in (t ++ t', r)
  | (t, Raise e) => (t, Raise e)
  end.

Definition lift {A} (r : result A) : M A := ([], r).

Definition tell (e : event) : M unit := ([e], Ok tt).

Definition tell_all (es : list event) : M unit := (es, Ok tt).

(** The elements a [for]/[map] visits in a list or an array. *)
Definition items (s : stamps) : list string :=
  match s with
  | One s => [s]
  | Arr l => l
  | Lst l => l
  end.

Definition is_str (s : stamps) : bool :=
  match s with
  | One _ => true
  | _ => false
  end.

Section Pipeline.

Variable parse : string -> option datetime.
Variable now : datetime.

(** [gdelt.inputChecks.dateInputCheck], not part of these sources: it
    returns nothing, or raises. *)
Variable dateInputCheck : DateSpec -> Z -> result unit.

(** [gdelt.vectorizingFuncs.urlBuilder], not part of these sources, on
    one timestamp string, with the version and the table. *)
Variable urlBuilder : string -> Z -> string -> string.

(** [gdelt.parallel.mp_worker(url, table=...)], not part of these sources:
    the parsed rows of one file, or the exception of a failed fetch. *)
Variable mp_worker : string -> option string -> result DataFrame.

(** [gdelt.helpers.cameos] with the loaded code table, not part of these
    sources. *)
Variable cameos : value -> value.

(** The header lists of [gdelt.getHeaders], not part of these sources. *)
Variable events1Heads : list value.
Variable events2Heads : list value.
Variable mentionsHeads : list value.
Variable gkgHeads : list value.

(** The order in which [pool.imap_unordered] hands back the submitted
    URLs. *)
Variable completion : list string -> list string.

(** [mp_worker] handed a whole download list where it expects one URL,
    which happens when the list an earlier query left on the object meets
    a single timestamp; not part of these sources. *)
Variable mp_worker_seq : stamps -> option string -> result DataFrame.

(** What [pool.imap_unordered] visits when the download list is the one
    URL [urlBuilder] returned for a single timestamp: the characters of a
    [str], or the [TypeError] of an object that cannot be iterated.
    [urlBuilder] is not part of these sources. *)
Variable iter_url : string -> result (list string).

(** Whether the [table] argument is the very object that the literal
    ["mentions"] of [base.py] denotes, which is what [is] tests: so it is,
    in CPython, for the literal ['mentions'] of the caller's source, and so
    it is not for an equal string built at run time. *)
Variable table_is_literal : bool.

(** [self.download_list] as the object holds it when [Search] is called:
    [None] on an object on which no query has assigned it, otherwise the
    list the last assigning query left. *)
Variable stale_download_list : option stamps.

(** [self.version]. *)
Variable version : Z.

(** Modelled from the spec: [urlBuilder] (gdelt/vectorizingFuncs.py, not
    among these sources) is a pure function from timestamp, table kind and
    version to one URL (spec, section 4.3), so a list or an array of
    timestamps goes to the URLs of its members, in order and in the same
    container. *)
Definition urls (s : stamps) (version : Z) (table : string) : stamps :=
  match s with
  | One x => One (urlBuilder x version table)
  | Arr l => Arr ((fun x => urlBuilder x version table) <$> l)
  | Lst l => Lst ((fun x => urlBuilder x version table) <$> l)
  end.

(** [gdeltRangeString(dateRanger(date), version=v, coverage=c)]. *)
Definition resolve (date : DateSpec) (v : Z) (c : bool) : result stamps :=
  element ← dateRanger parse date;
  gdeltRangeString parse now element c v.

(** The version and table dispatch of [Search]: the column names and the
    value assigned to [self.download_list], each [None] where no branch
    assigns it.  The test [self.table is "mentions"] holds for the object
    of the literal alone.  (The message of the [BaseException] is given
    without its quote marks.) *)
Definition plan (date : DateSpec) (table : string) (coverage : bool)
  : result (option (list value) * option stamps) :=
  if bool_decide (version = 1) then
    if bool_decide (table = "mentions"%string) && table_is_literal then
      Raise (BaseException "GDELT 1.0 does not have the mentions table. Specify the events or gkg table.")
    else
      let columns := events1Heads in
      if bool_decide (table = "gkg"%string) then
        s ← resolve date 1 true;
        Ok (Some columns, Some (urls s 1 "gkg"))
      else if bool_decide (table = "events"%string)
              || bool_decide (table = ""%string) then
        if coverage then
          s ← resolve date 1 true;
          Ok (Some columns, Some (urls s 1 "events"))
        else
          s ← resolve date 1 false;
          Ok (Some columns, Some (urls s 1 "events"))
      else Raise (Exception "You entered an incorrect table type for GDELT 1.0.")
  else if bool_decide (version = 2) then
    st1 ← (if bool_decide (table = "events"%string)
              || bool_decide (table = ""%string) then
             s ← resolve date 2 coverage;
             Ok (Some events2Heads, Some (urls s 2 "events"))
           else Ok (None, None));
    st2 ← (if bool_decide (table = "gkg"%string) then
             s ← resolve date 2 coverage;
             Ok (Some gkgHeads, Some (urls s 2 "gkg"))
           else Ok st1);
    if bool_decide (table = "mentions"%string) then
      s ← resolve date 2 coverage;
      Ok (Some mentionsHeads, Some (urls s 2 "mentions"))
    else Ok st2
  else Ok (None, None).

(** The read of [self.download_list] in the download section: the value
    this call assigned, else the one an earlier query left on the object,
    else an [AttributeError]. *)
Definition get_download_list (assigned : option stamps) : M stamps :=
  match assigned with
  | Some l => mret l
  | None =>
      match stale_download_list with
      | Some l => mret l
      | None => lift (Raise (AttributeError "'gdelt' object has no attribute 'download_list'"))
      end
  end.

(** The elements [pool.imap_unordered] visits in the download list. *)
Definition visited (dl : stamps) : result (list string) :=
  match dl with
  | One url => iter_url url
  | _ => Ok (items dl)
  end.

(** The download section of [Search].  A download list assigned by this
    call has the shape of [datesString] (both come from the same resolver
    call), so the inline branch meets one URL and the pool branch a
    sequence; a list left by an earlier query may have the other shape.
    [imap_unordered] hands every URL to the pool and a failed fetch
    cancels none of the others; [list(...)] raises the exception of the
    first failed fetch to come back, and the pool is then left open. *)
Definition download (datesString : stamps) (table : string)
  (download_list : option stamps) : M DataFrame :=
  if is_str datesString then
    dl ← get_download_list download_list;
    match dl with
    | One url =>
        _ ← tell (Inline url);
        if bool_decide (table = "events"%string)
        then lift (mp_worker url (Some "events"%string))
        else lift (mp_worker url None)
    | _ =>
        _ ← tell (InlineSeq dl);
        if bool_decide (table = "events"%string)
        then lift (mp_worker_seq dl (Some "events"%string))
        else lift (mp_worker_seq dl None)
    end
  else
    if bool_decide (table = "events"%string) then
      lift (Raise (NameError "p"))
    else
      _ ← tell PoolOpen;
      dl ← get_download_list download_list;
      submitted ← lift (visited dl);
      _ ← tell_all (Pooled <$> completion submitted);
      downloaded_dfs ←
        lift (result_map (fun url => mp_worker url None)
                (completion submitted));
      _ ← tell PoolClose;
      results ← lift (pd_concat downloaded_dfs);
      mret (reset_index results).

(** What [Search] does with the downloaded table: column names, the
    empty check, and the CAMEO description column. *)
Definition finish (table : string) (columns : option (list value))
  (results : DataFrame) : result DataFrame :=
  results ←
    (if bool_decide (table = "gkg"%string) && bool_decide (version = 1) then
       header ← ix0 results;
       results ← set_columns results header;
       drop0 results
     else
       match columns with
       | Some columns => set_columns results columns
       | None => Raise (NameError "columns")
       end);
  if bool_decide (df_len results = 0%nat) then
    Raise (ValueError "This GDELT query returned no data. Check internet connection or query parameters and retry")
  else if bool_decide (table = "events"%string) then
    codes ← column "EventCode" results;
    df_insert 27 "CAMEOCodeDescription" (cameos <$> codes) results
  else Ok results.

(** [gdelt.Search(date, table, coverage)] on an object of the given
    version whose [download_list] attribute is [stale_download_list]: the
    events of the query and the table it returns, or the exception it
    raises.  A [coverage] of [None] counts as [False]. *)
Definition Search (date : DateSpec) (table : string) (coverage : bool)
  : M DataFrame :=
  _ ← lift (dateInputCheck date version);
  datesString ← lift (resolve date version coverage);
  '(columns, download_list) ← lift (plan date table coverage);
  results ← download datesString table download_list;
  lift (finish table columns results).

End Pipeline.

(** ** Vocabulary of the statements *)

(** The instant [k] quarter-hours after midnight of day [d]. *)
Definition quarter_of (d : date) (k : Z) : datetime :=
  mkdt d (k / 4) (15 * (k mod 4)) 0.

(** The 96 quarter-hour stamps of day [d], 00:00:00 to 23:45:00. *)
Definition day_stamps (d : date) : list string :=
  (fun k => strftime (quarter_of d k)) <$> seqZ 0 96.

(** ["now" floored to 15 minutes]. *)
Definition floor15 (now : datetime) : datetime :=
  replace_minute now (15 * (minute now / 15)).

(** Chronological order of calendar days. *)
Definition date_leb (a b : date) : bool := toordinal a <=? toordinal b.

(** The number of characters the version 1 file identifier keeps for a
    timestamp of day [d]: daily files from 2013-04-01, yearly files before
    2006-01-01, monthly files in between. *)
Definition era_width (d : date) : nat :=
  if date_leb (mkdate 2013 4 1) d then 8%nat
  else if negb (date_leb (mkdate 2006 1 1) d) then 4%nat
  else 6%nat.

(** The version 1 file identifier of an instant. *)
Definition era_id (dt : datetime) : string :=
  str_take (era_width (dt_date dt)) (strftime dt).

(** The error of the empty check of [Search]. *)
Definition no_data : exn :=
  ValueError "This GDELT query returned no data. Check internet connection or query parameters and retry".

(** ** A sample environment *)

(** A clock reading, a URL scheme, a worker and header lists on which the
    pipeline can be run. *)
Definition sample_now : datetime := mkdt (mkdate 2016 11 3) 10 37 12.

Definition sample_check (date : DateSpec) (version : Z) : result unit := Ok tt.

Definition sample_urlBuilder (x : string) (version : Z) (table : string)
  : string :=
  (if bool_decide (version = 1) then "http://data.gdeltproject.org/events/"
   else "http://data.gdeltproject.org/gdeltv2/")
  +:+ x +:+ "." +:+ table +:+ ".zip".

Definition sample_heads : list value :=
  (fun i => if bool_decide (i = 26) then VStr "EventCode"
            else VStr ("c" +:+ str_int i)) <$> seqZ 0 30.

(** A worker whose every file holds one row of 30 cells. *)
Definition sample_worker (url : string) (table : option string)
  : result DataFrame :=
  Ok (mkdf (VInt <$> seqZ 0 30) [0] [replicate 30 (VStr "010")]).

(** A worker whose every file parses to a frame without rows. *)
Definition empty_worker (url : string) (table : option string)
  : result DataFrame :=
  Ok (mkdf (VInt <$> seqZ 0 30) [] []).

(** A worker whose every file parses to a frame without rows or columns. *)
Definition blank_worker (url : string) (table : option string)
  : result DataFrame :=
  Ok (mkdf [] [] []).

Definition sample_cameos (code : value) : value := VStr "description".

(** The worker handed a download list: it finds no URL to open. *)
Definition sample_worker_seq (download_list : stamps) (table : option string)
  : result DataFrame :=
  Raise (Exception "No connection adapters were found").

(** A URL that is a [str]: its characters. *)
Definition sample_iter_url (url : string) : result (list string) :=
  Ok ((fun c => String c EmptyString) <$> String.list_ascii_of_string url).

(** [Search] on a fresh object, with the table given as a literal. *)
Definition sample_Search (worker : string -> option string -> result DataFrame)
  (version : Z) : DateSpec -> string -> bool -> M DataFrame :=
  Search parse_model sample_now sample_check sample_urlBuilder worker
    sample_cameos sample_heads sample_heads sample_heads sample_heads
    (fun l => l) sample_worker_seq sample_iter_url true None version.

(** ** Proof automation *)

(** Linear arithmetic with division and remainder by constants. *)
Ltac div_lia := Z.to_euclidean_division_equations; lia.

(** The twelve cases of a month number. *)
Ltac month_cases m :=
  let H := fresh "Hm" in
  assert (m = 1 \/ m = 2 \/ m = 3 \/ m = 4 \/ m = 5 \/ m = 6 \/ m = 7
          \/ m = 8 \/ m = 9 \/ m = 10 \/ m = 11 \/ m = 12) as H by lia;
  repeat (destruct H as [H | H]); subst m.

(** ** The [gdelt] object *)



Section Method.

Variable parse : string -> option datetime.
Variable now : datetime.
Variable dateInputCheck : DateSpec -> Z -> result unit.
Variable urlBuilder : string -> Z -> string -> string.
Variable mp_worker : string -> option string -> result DataFrame.
Variable cameos : value -> value.
Variables events1Heads events2Heads mentionsHeads gkgHeads : list value.
Variable completion : list string -> list string.
Variable mp_worker_seq : stamps -> option string -> result DataFrame.
Variable iter_url : string -> result (list string).
Variable table_is_literal : bool.


End Method.

(** ** A failing download *)

(** A worker that cannot reach the file of 2016-10-20. *)
Definition failing_worker (url : string) (table : option string)
  : result DataFrame :=
  if bool_decide
       (url = "http://data.gdeltproject.org/gdeltv2/20161020234500.gkg.zip"%string)
  then Raise (Exception "HTTP Error 404")
  else sample_worker url table.

(** ** Calendar lemmas *)

Lemma valid_dateb_spec d : valid_dateb d = true <-> valid_date d.
Proof.
  unfold valid_dateb, valid_date.
  rewrite !andb_true_iff, !Z.leb_le. tauto.
Qed.

Lemma is_leap_spec y :
  is_leap y = true <-> y mod 4 = 0 /\ (y mod 100 <> 0 \/ y mod 400 = 0).
Proof.
  unfold is_leap.
  rewrite andb_true_iff, orb_true_iff, negb_true_iff, !Z.eqb_eq, Z.eqb_neq.
  tauto.
Qed.

Lemma days_before_year_succ y :
  days_before_year (y + 1)
  = days_before_year y + 365 + (if is_leap y then 1 else 0).
Proof.
  unfold days_before_year.
  replace (y + 1 - 1) with y by lia.
  destruct (is_leap y) eqn:Hl.
  - apply is_leap_spec in Hl. div_lia.
  - assert (~ (y mod 4 = 0 /\ (y mod 100 <> 0 \/ y mod 400 = 0))) as Hn.
    { rewrite <- is_leap_spec. congruence. }
    div_lia.
Qed.

Lemma days_in_month_bounds y m : 28 <= days_in_month y m <= 31.
Proof.
  unfold days_in_month.
  repeat (match goal with |- context [if ?b then _ else _] => destruct b end);
    lia.
Qed.

Lemma next_day_spec d :
  valid_date d ->
  valid_date (next_day d) /\ toordinal (next_day d) = toordinal d + 1.
Proof.
  destruct d as [y m dd]. unfold valid_date, next_day, toordinal. simpl.
  intros [Hm Hd].
  destruct (dd <? days_in_month y m) eqn:Hlt.
  - apply Z.ltb_lt in Hlt. simpl. lia.
  - apply Z.ltb_ge in Hlt. assert (dd = days_in_month y m) as -> by lia.
    destruct (m <? 12) eqn:Hm12.
    + apply Z.ltb_lt in Hm12. simpl.
      pose proof (days_in_month_bounds y (m + 1)).
      split; [lia |].
      unfold days_before_month, days_in_month.
      month_cases m; simpl; destruct (is_leap y); simpl; lia.
    + apply Z.ltb_ge in Hm12. assert (m = 12) as -> by lia. simpl.
      pose proof (days_in_month_bounds (y + 1) 1).
      split; [lia |].
      rewrite days_before_year_succ.
      unfold days_before_month, days_in_month. simpl.
      destruct (is_leap y), (is_leap (y + 1)); simpl; lia.
Qed.

Lemma prev_day_spec d :
  valid_date d ->
  valid_date (prev_day d) /\ toordinal (prev_day d) = toordinal d - 1.
Proof.
  destruct d as [y m dd]. unfold valid_date, prev_day, toordinal. simpl.
  intros [Hm Hd].
  destruct (1 <? dd) eqn:Hlt.
  - apply Z.ltb_lt in Hlt. simpl. lia.
  - apply Z.ltb_ge in Hlt. assert (dd = 1) as -> by lia.
    destruct (1 <? m) eqn:Hm1.
    + apply Z.ltb_lt in Hm1. simpl.
      pose proof (days_in_month_bounds y (m - 1)).
      split; [lia |].
      unfold days_before_month, days_in_month.
      month_cases m; simpl; destruct (is_leap y); simpl; lia.
    + apply Z.ltb_ge in Hm1. assert (m = 1) as -> by lia. simpl.
      split; [unfold days_in_month; simpl; lia |].
      pose proof (days_before_year_succ (y - 1)) as Hs.
      replace (y - 1 + 1) with y in Hs by lia.
      unfold days_before_month. simpl.
      destruct (is_leap (y - 1)); simpl; lia.
Qed.

Lemma iter_next_day n :
  valid_date (Nat.iter n next_day epoch)
  /\ toordinal (Nat.iter n next_day epoch) = 719163 + Z.of_nat n.
Proof.
  induction n as [| n [IHv IHo]].
  - split; [vm_compute; intuition discriminate | reflexivity].
  - simpl Nat.iter. destruct (next_day_spec _ IHv) as [Hv Ho].
    split; [exact Hv | lia].
Qed.

Lemma iter_prev_day n :
  valid_date (Nat.iter n prev_day epoch)
  /\ toordinal (Nat.iter n prev_day epoch) = 719163 - Z.of_nat n.
Proof.
  induction n as [| n [IHv IHo]].
  - split; [vm_compute; intuition discriminate | reflexivity].
  - simpl Nat.iter. destruct (prev_day_spec _ IHv) as [Hv Ho].
    split; [exact Hv | lia].
Qed.

Lemma date_of_days_spec n :
  valid_date (date_of_days n) /\ datetime64_D (date_of_days n) = n.
Proof.
  unfold date_of_days, datetime64_D.
  destruct (0 <=? n) eqn:Hn.
  - apply Z.leb_le in Hn. destruct (iter_next_day (Z.to_nat n)) as [Hv Ho].
    split; [exact Hv | lia].
  - apply Z.leb_gt in Hn. destruct (iter_prev_day (Z.to_nat (- n))) as [Hv Ho].
    split; [exact Hv | lia].
Qed.

Lemma days_before_year_mono y1 y2 :
  y1 <= y2 -> days_before_year y1 <= days_before_year y2.
Proof. unfold days_before_year. intros. div_lia. Qed.

Lemma day_of_year_bounds d :
  valid_date d ->
  days_before_year (year d) < toordinal d <= days_before_year (year d + 1).
Proof.
  destruct d as [y m dd]. unfold valid_date, toordinal. simpl.
  intros [Hm Hd]. rewrite days_before_year_succ.
  revert Hd. unfold days_before_month, days_in_month.
  month_cases m; simpl; destruct (is_leap y); simpl; lia.
Qed.

Lemma day_of_year_inj y m dd m' dd' :
  valid_date (mkdate y m dd) -> valid_date (mkdate y m' dd') ->
  days_before_month y m + dd = days_before_month y m' + dd' ->
  m = m' /\ dd = dd'.
Proof.
  unfold valid_date, days_before_month, days_in_month. simpl.
  intros [Hm Hd] [Hm' Hd']. revert Hd Hd'.
  destruct (is_leap y); month_cases m; month_cases m';
    cbv [Z.eqb Z.ltb Z.compare Pos.compare Pos.compare_cont Pos.eqb
         andb orb]; lia.
Qed.

Lemma toordinal_inj a b :
  valid_date a -> valid_date b -> toordinal a = toordinal b -> a = b.
Proof.
  intros Ha Hb Heq.
  pose proof (day_of_year_bounds a Ha) as Ba.
  pose proof (day_of_year_bounds b Hb) as Bb.
  assert (year a = year b) as Hy.
  { destruct (Z.lt_trichotomy (year a) (year b)) as [Hlt | [He | Hgt]];
      [| exact He |].
    - pose proof (days_before_year_mono (year a + 1) (year b) ltac:(lia)). lia.
    - pose proof (days_before_year_mono (year b + 1) (year a) ltac:(lia)). lia. }
  clear Ba Bb.
  destruct a as [y m dd], b as [y' m' dd']. simpl in Hy. subst y'.
  destruct (day_of_year_inj y m dd m' dd' Ha Hb) as [-> ->]; [| reflexivity].
  unfold toordinal in Heq. simpl in Heq. lia.
Qed.

Lemma date_of_days_datetime64 d :
  valid_date d -> date_of_days (datetime64_D d) = d.
Proof.
  intros Hd. destruct (date_of_days_spec (datetime64_D d)) as [Hv Ho].
  revert Hv Ho. generalize (date_of_days (datetime64_D d)). intros x Hv Ho.
  apply toordinal_inj; [exact Hv | exact Hd |].
  unfold datetime64_D in Ho. lia.
Qed.

(** ** Reading back decimal fields *)

Lemma digit_val_digit k : 0 <= k < 10 -> digit_val (digit k) = Some k.
Proof.
  intros Hk.
  assert (k = 0 \/ k = 1 \/ k = 2 \/ k = 3 \/ k = 4 \/ k = 5 \/ k = 6
          \/ k = 7 \/ k = 8 \/ k = 9) as H by lia.
  repeat (destruct H as [H | H]); subst k; reflexivity.
Qed.

Lemma num2_zpad n :
  0 <= n < 100 -> num2 (digit (n / 10)) (digit (n mod 10)) = Some n.
Proof.
  intros Hn. unfold num2.
  rewrite !digit_val_digit by div_lia. simpl. f_equal. div_lia.
Qed.

Lemma num4_zpad n :
  0 <= n < 10000 ->
  num4 (digit (n / 1000)) (digit (n / 100 mod 10))
       (digit (n mod 100 / 10)) (digit (n mod 100 mod 10)) = Some n.
Proof.
  intros Hn. unfold num4.
  replace (n / 1000) with (n / 100 / 10) by div_lia.
  rewrite (num2_zpad (n / 100)) by div_lia.
  rewrite (num2_zpad (n mod 100)) by div_lia.
  simpl. f_equal. div_lia.
Qed.

Lemma checked_datetime_ok y m d h mi s :
  dt_ok (mkdt (mkdate y m d) h mi s) ->
  checked_datetime y m d h mi s = Some (mkdt (mkdate y m d) h mi s).
Proof.
  unfold dt_ok, date_ok, time_ok, checked_datetime. simpl.
  intros [[Hv Hy] (Hh & Hm & Hs)].
  apply valid_dateb_spec in Hv. rewrite Hv.
  replace (1 <=? y) with true by (symmetry; apply Z.leb_le; lia).
  replace (y <=? 9999) with true by (symmetry; apply Z.leb_le; lia).
  replace (h <? 24) with true by (symmetry; apply Z.ltb_lt; lia).
  replace (mi <? 60) with true by (symmetry; apply Z.ltb_lt; lia).
  replace (s <? 60) with true by (symmetry; apply Z.ltb_lt; lia).
  reflexivity.
Qed.

Lemma parse_model_stamp dt : dt_ok dt -> parse_model (strftime dt) = Some dt.
Proof.
  destruct dt as [[y m d] h mi s]. intros Hok.
  pose proof Hok as [[[Hm Hd] Hy] (Hh & Hmi & Hs)]. simpl in *.
  pose proof (days_in_month_bounds y m).
  unfold parse_model.
  change (String.list_ascii_of_string (strftime (mkdt (mkdate y m d) h mi s)))
    with [digit (y / 1000); digit (y / 100 mod 10); digit (y mod 100 / 10);
          digit (y mod 100 mod 10); digit (m / 10); digit (m mod 10);
          digit (d / 10); digit (d mod 10); digit (h / 10); digit (h mod 10);
          digit (mi / 10); digit (mi mod 10); digit (s / 10); digit (s mod 10)].
  cbv beta iota.
  rewrite num4_zpad, !num2_zpad by lia.
  simpl. apply checked_datetime_ok. exact Hok.
Qed.

Lemma parse_model_ymd d :
  date_ok d -> parse_model (strftime_ymd d) = Some (midnight d).
Proof.
  destruct d as [y m d]. intros Hok.
  pose proof Hok as [[Hm Hd] Hy]. simpl in *.
  pose proof (days_in_month_bounds y m).
  unfold parse_model.
  change (String.list_ascii_of_string (strftime_ymd (mkdate y m d)))
    with [digit (y / 1000); digit (y / 100 mod 10); digit (y mod 100 / 10);
          digit (y mod 100 mod 10); "-"%char; digit (m / 10); digit (m mod 10);
          "-"%char; digit (d / 10); digit (d mod 10)].
  cbv beta iota.
  change (is_sep "-") with true. cbv beta iota. simpl andb. cbv beta iota.
  rewrite num4_zpad, !num2_zpad by lia.
  simpl. apply (checked_datetime_ok y m d 0 0 0).
  split; [exact Hok | unfold time_ok; simpl; lia].
Qed.

Lemma parse_model_quarter d h m :
  date_ok d -> 0 <= h < 24 -> 0 <= m < 60 ->
  parse_model (str_datetime (midnight d) +:+ " " +:+ zpad2 h +:+ ":" +:+ zpad2 m)
  = Some (mkdt d h m 0).
Proof.
  destruct d as [y mo d]. intros Hok Hh Hm.
  pose proof Hok as [[Hmo Hd] Hy]. simpl in *.
  pose proof (days_in_month_bounds y mo).
  unfold parse_model.
  change (String.list_ascii_of_string
            (str_datetime (midnight (mkdate y mo d)) +:+ " " +:+ zpad2 h
             +:+ ":" +:+ zpad2 m))
    with [digit (y / 1000); digit (y / 100 mod 10); digit (y mod 100 / 10);
          digit (y mod 100 mod 10); "-"%char; digit (mo / 10);
          digit (mo mod 10); "-"%char; digit (d / 10); digit (d mod 10);
          " "%char; "0"%char; "0"%char; ":"%char; "0"%char; "0"%char;
          ":"%char; "0"%char; "0"%char; " "%char; digit (h / 10);
          digit (h mod 10); ":"%char; digit (m / 10); digit (m mod 10)].
  cbv beta iota.
  change (is_sep "-") with true.
  change (is_char " " " ") with true.
  change (is_char ":" ":") with true.
  simpl andb. cbv beta iota.
  rewrite num4_zpad, !num2_zpad by lia.
  change (num2 "0" "0") with (Some 0).
  simpl. apply (checked_datetime_ok y mo d h m 0).
  split; [exact Hok | unfold time_ok; simpl; lia].
Qed.

Lemma parse_model_spec : parse_spec parse_model.
Proof.
  constructor.
  - exact parse_model_stamp.
  - exact parse_model_ymd.
  - exact parse_model_quarter.
  - reflexivity.
  - reflexivity.
Qed.

(** ** Sample evaluations *)

Example strftime_sample :
  strftime (mkdt (mkdate 2016 10 19) 23 45 0) = "20161019234500"%string.
Proof. reflexivity. Qed.

Example date_of_days_sample :
  date_of_days (datetime64_D (mkdate 2016 10 19)) = mkdate 2016 10 19.
Proof. vm_compute. reflexivity. Qed.

Example times_sample :
  take 5 times = ["00:00"; "00:15"; "00:30"; "00:45"; "01:00"]%string
  /\ last times = Some "23:45"%string /\ length times = 96%nat.
Proof. vm_compute. auto. Qed.

Example parse_model_samples :
  parse_model "2016-10-19" = Some (midnight (mkdate 2016 10 19))
  /\ parse_model "2016 10 19" = Some (midnight (mkdate 2016 10 19))
  /\ parse_model "20161019234500" = Some (mkdt (mkdate 2016 10 19) 23 45 0)
  /\ parse_model "2016-10-19 00:00:00 10:15" = Some (mkdt (mkdate 2016 10 19) 10 15 0)
  /\ parse_model "2016-02-30" = None
  /\ parse_model "" = None
  /\ parse_model "not a date" = None.
Proof. vm_compute. repeat split. Qed.

(** ** Lemmas on the resolver *)

Lemma bind_Ok {A B} (a : A) (k : A -> result B) : (Ok a ≫= k) = k a.
Proof. reflexivity. Qed.

Lemma bind_Raise {A B} (e : exn) (k : A -> result B) :
  (Raise e ≫= k) = Raise e.
Proof. reflexivity. Qed.

Lemma result_map_fmap_ok {A B C} (f : B -> result C) (h : A -> B)
  (g : A -> C) (l : list A) :
  (forall x, x ∈ l -> f (h x) = Ok (g x)) ->
  result_map f (h <$> l) = Ok (g <$> l).
Proof.
  induction l as [| x l IH]; intros Hall; [reflexivity |].
  rewrite !fmap_cons. cbn [result_map].
  rewrite (Hall x), bind_Ok by left.
  rewrite IH; [reflexivity |]. intros y Hy. apply Hall. by right.
Qed.

Lemma result_map_ok {A B} (f : A -> result B) (g : A -> B) (l : list A) :
  (forall x, x ∈ l -> f x = Ok (g x)) -> result_map f l = Ok (g <$> l).
Proof.
  intros Hall. rewrite <- (list_fmap_id l) at 1.
  by apply result_map_fmap_ok.
Qed.

Lemma result_map_raise {A B} (f : A -> result B) (l : list A) (x : A) :
  x ∈ l -> is_raise (f x) -> is_raise (result_map f l).
Proof.
  induction l as [| y l IH]; intros Hin Hx; [by apply elem_of_nil in Hin |].
  simpl. apply elem_of_cons in Hin as [-> | Hin].
  - destruct (f y); [contradiction | exact I].
  - destruct (f y); [| exact I]. simpl.
    specialize (IH Hin Hx). destruct (result_map f l); [contradiction | exact I].
Qed.

Lemma times_eq :
  times = (fun k => zpad2 (k / 4) +:+ ":" +:+ zpad2 (15 * (k mod 4)))
            <$> seqZ 0 96.
Proof. vm_compute. reflexivity. Qed.

Lemma date_eqb_eq a b : date_eqb a b = true <-> a = b.
Proof.
  destruct a as [y m d], b as [y' m' d']. unfold date_eqb. simpl.
  rewrite !andb_true_iff, !Z.eqb_eq. split.
  - intros [[-> ->] ->]. reflexivity.
  - intros [= -> -> ->]. auto.
Qed.

Lemma date_eqb_neq a b : a <> b -> date_eqb a b = false.
Proof.
  intros Hne. destruct (date_eqb a b) eqn:He; [| reflexivity].
  apply date_eqb_eq in He. contradiction.
Qed.

Section ResolverFacts.

Variable parse : string -> option datetime.
Hypothesis Hparse : parse_spec parse.
Variable now : datetime.

Lemma quarter_stamp_midnight d k :
  date_ok d -> 0 <= k < 96 ->
  quarter_stamp parse (midnight d)
    (zpad2 (k / 4) +:+ ":" +:+ zpad2 (15 * (k mod 4)))
  = Ok (strftime (quarter_of d k)).
Proof.
  intros Hd Hk. unfold quarter_stamp, parse_raising.
  rewrite (parse_quarter parse Hparse d (k / 4) (15 * (k mod 4)))
    by (try exact Hd; div_lia).
  reflexivity.
Qed.

Lemma expand_day d :
  date_ok d ->
  result_map (quarter_stamp parse (midnight d)) times = Ok (day_stamps d).
Proof.
  intros Hd. rewrite times_eq. unfold day_stamps.
  apply result_map_fmap_ok. intros k Hk.
  apply elem_of_seqZ in Hk. apply quarter_stamp_midnight; [exact Hd | lia].
Qed.

Lemma expand_days ds :
  Forall date_ok ds ->
  result_map (fun i => result_map (quarter_stamp parse i) times)
    (midnight <$> ds)
  = Ok (day_stamps <$> ds).
Proof.
  intros Hds. apply result_map_fmap_ok. intros d Hd.
  apply expand_day. rewrite Forall_forall in Hds. by apply Hds.
Qed.

(** The branches of [gdeltRangeString], one equation each. *)
Lemma gdeltRangeString_today_coverage e v :
  dt_date e = dt_date now -> v <> 1 ->
  gdeltRangeString parse now (ArrDt e) true v
  = (l ← result_map (quarter_stamp parse e)
           (take (Z.to_nat (hour now * 4 + (minute now / 15 + 1))) times);
     Ok (Arr l)).
Proof.
  intros Hd Hv. unfold gdeltRangeString, v1_datestrings.
  rewrite (proj2 (date_eqb_eq _ _) Hd).
  rewrite (proj2 (Z.eqb_neq v 1) Hv). cbn [andb negb].
  destruct (result_map _ _); reflexivity.
Qed.

Lemma gdeltRangeString_other_coverage e v :
  dt_date e <> dt_date now -> v <> 1 ->
  gdeltRangeString parse now (ArrDt e) true v
  = (l ← result_map (quarter_stamp parse e) times; Ok (Arr l)).
Proof.
  intros Hd Hv. unfold gdeltRangeString, v1_datestrings.
  rewrite (date_eqb_neq _ _ Hd).
  rewrite (proj2 (Z.eqb_neq v 1) Hv). cbn [andb negb].
  destruct (result_map _ _); reflexivity.
Qed.

Lemma gdeltRangeString_list_coverage l v :
  v <> 1 ->
  gdeltRangeString parse now (ArrList l) true v
  = (ls ← result_map (fun i => result_map (quarter_stamp parse i) times) l;
     match ls with
     | [] => Raise (ValueError "need at least one array to concatenate")
     | _ => Ok (Arr (concat ls))
     end).
Proof.
  intros Hv. unfold gdeltRangeString, v1_datestrings.
  rewrite (proj2 (Z.eqb_neq v 1) Hv). cbn [andb negb].
  destruct (result_map _ _) as [[| x ls] |]; reflexivity.
Qed.

Lemma gdeltRangeString_single_plain e c v :
  c && negb (v =? 1) = false ->
  gdeltRangeString parse now (ArrDt e) c v
  = v1_datestrings parse v
      (One (strftime (if date_eqb (dt_date e) (dt_date now)
                      then floor15 now
                      else replace_minute e (15 * (minute now / 15))))).
Proof.
  intros Hc. unfold gdeltRangeString. rewrite Hc.
  destruct (date_eqb _ _); reflexivity.
Qed.

Lemma gdeltRangeString_list_plain l c v :
  c && negb (v =? 1) = false ->
  gdeltRangeString parse now (ArrList l) c v
  = v1_datestrings parse v (Lst ((fun x => strftime (end_of_day x)) <$> l)).
Proof. intros Hc. unfold gdeltRangeString. rewrite Hc. reflexivity. Qed.

End ResolverFacts.

Lemma strftime_length dt : String.length (strftime dt) = 14%nat.
Proof. reflexivity. Qed.

Lemma seconds_of_quarter d k :
  0 <= k < 96 ->
  seconds_of (quarter_of d k) = seconds_of (midnight d) + 900 * k.
Proof. intros Hk. unfold seconds_of, quarter_of, midnight. simpl. div_lia. Qed.

Lemma day_stamps_lookup d k :
  0 <= k < 96 ->
  day_stamps d !! Z.to_nat k = Some (strftime (quarter_of d k)).
Proof.
  intros Hk. unfold day_stamps. rewrite list_lookup_fmap.
  rewrite lookup_seqZ_lt by lia. simpl. do 3 f_equal. lia.
Qed.

Lemma quarter_of_ok d k : date_ok d -> 0 <= k < 96 -> dt_ok (quarter_of d k).
Proof.
  intros Hd Hk. split; [exact Hd |]. unfold time_ok, quarter_of. simpl. div_lia.
Qed.

Lemma np_datetime64_ymd d :
  date_ok d -> np_datetime64 (strftime_ymd d) = Ok (datetime64_D d).
Proof.
  destruct d as [y m d]. intros Hok.
  pose proof Hok as [[Hm Hd] Hy]. simpl in *.
  pose proof (days_in_month_bounds y m).
  unfold np_datetime64.
  change (String.list_ascii_of_string (strftime_ymd (mkdate y m d)))
    with [digit (y / 1000); digit (y / 100 mod 10); digit (y mod 100 / 10);
          digit (y mod 100 mod 10); "-"%char; digit (m / 10); digit (m mod 10);
          "-"%char; digit (d / 10); digit (d mod 10)].
  cbv beta iota.
  rewrite num4_zpad, !num2_zpad by lia.
  destruct Hok as [Hv _]. apply valid_dateb_spec in Hv. rewrite Hv.
  reflexivity.
Qed.

Section RangerFacts.

Variable parse : string -> option datetime.
Hypothesis Hparse : parse_spec parse.

Lemma dateFormatter_ok s dt :
  parse s = Some dt ->
  dateFormatter parse s = Ok (strftime_ymd (dt_date dt)).
Proof. intros Hs. unfold dateFormatter, parse_raising. by rewrite Hs. Qed.

(** The two-element branch of [dateRanger]. *)
Lemma dateRanger_pair a b da db :
  parse a = Some da -> parse b = Some db ->
  date_ok (dt_date da) -> date_ok (dt_date db) ->
  dateRanger parse (DList [a; b])
  = Ok (ArrList
          (((fun n => midnight (date_of_days n))
              <$> seqZ (datetime64_D (dt_date da))
                    (datetime64_D (dt_date db) - datetime64_D (dt_date da)))
           ++ [midnight (dt_date db)])).
Proof.
  intros Ha Hb Hda Hdb. unfold dateRanger, np_vectorize.
  change (bool_decide (length [a; b] = 1%nat)) with false.
  change (bool_decide (2 < length [a; b])%nat) with false.
  change (bool_decide (length [a; b] = 2%nat)) with true.
  cbn [result_map].
  rewrite (dateFormatter_ok a da Ha), bind_Ok.
  rewrite (dateFormatter_ok b db Hb), !bind_Ok.
  cbn [lookup list_lookup default from_option id].
  rewrite !np_datetime64_ymd, !bind_Ok by assumption.
  unfold parse_raising.
  rewrite (parse_ymd parse Hparse) by assumption.
  reflexivity.
Qed.

End RangerFacts.

Lemma days_range_snoc (a b : date) :
  valid_date b -> toordinal a <= toordinal b ->
  ((fun n => midnight (date_of_days n))
     <$> seqZ (datetime64_D a) (datetime64_D b - datetime64_D a))
  ++ [midnight b]
  = (fun n => midnight (date_of_days n))
      <$> seqZ (datetime64_D a) (days_between a b + 1).
Proof.
  intros Hb Hab.
  assert (days_between a b = datetime64_D b - datetime64_D a) as ->
    by (unfold days_between, datetime64_D; lia).
  assert (0 <= datetime64_D b - datetime64_D a) as Hn
    by (unfold datetime64_D; lia).
  rewrite seqZ_app by lia. rewrite fmap_app. f_equal.
  replace (datetime64_D a + (datetime64_D b - datetime64_D a))
    with (datetime64_D b) by lia.
  change (seqZ (datetime64_D b) 1) with [datetime64_D b].
  cbn [fmap list_fmap]. by rewrite date_of_days_datetime64.
Qed.

(** ** The version 1 truncation *)

Lemma dt_geb_midnight dt d :
  time_ok dt -> dt_geb dt (midnight d) = date_leb d (dt_date dt).
Proof.
  intros (Hh & Hm & Hs). unfold dt_geb, date_leb, seconds_of, midnight. simpl.
  generalize (toordinal d), (toordinal (dt_date dt)). intros o1 o2.
  destruct (Z.leb_spec o1 o2).
  - apply Z.leb_le. lia.
  - apply Z.leb_gt. lia.
Qed.

Lemma dt_ltb_midnight dt d :
  time_ok dt -> dt_ltb dt (midnight d) = negb (date_leb d (dt_date dt)).
Proof.
  intros (Hh & Hm & Hs). unfold dt_ltb, date_leb, seconds_of, midnight. simpl.
  generalize (toordinal d), (toordinal (dt_date dt)). intros o1 o2.
  destruct (Z.leb_spec o1 o2); simpl.
  - apply Z.ltb_ge. lia.
  - apply Z.ltb_lt. lia.
Qed.

Lemma v1_truncate_stamp parse dt :
  parse_spec parse -> dt_ok dt ->
  v1_truncate parse 1 (strftime dt) = Ok (era_id dt).
Proof.
  intros Hparse Hdt. unfold v1_truncate, parse_raising.
  rewrite (parse_stamp parse Hparse dt Hdt), bind_Ok.
  rewrite (parse_2013 parse Hparse), bind_Ok.
  rewrite (parse_2006 parse Hparse), bind_Ok.
  destruct Hdt as [_ Ht].
  rewrite dt_geb_midnight, dt_ltb_midnight by exact Ht.
  unfold era_id, era_width. rewrite andb_true_r.
  destruct (date_leb (mkdate 2013 4 1) (dt_date dt)); [reflexivity |].
  destruct (date_leb (mkdate 2006 1 1) (dt_date dt)); reflexivity.
Qed.

Lemma era_id_length dt : String.length (era_id dt) = era_width (dt_date dt).
Proof.
  unfold era_id, era_width.
  destruct (date_leb (mkdate 2013 4 1) (dt_date dt)); [reflexivity |].
  destruct (date_leb (mkdate 2006 1 1) (dt_date dt)); reflexivity.
Qed.

Lemma floor15_ok now : dt_ok now -> dt_ok (floor15 now).
Proof.
  intros [Hd (Hh & Hm & Hs)]. split; [exact Hd |].
  unfold time_ok, floor15, replace_minute. simpl. div_lia.
Qed.

Lemma replace_minute_ok e m : dt_ok e -> 0 <= m < 60 -> dt_ok (replace_minute e m).
Proof.
  intros [Hd (Hh & Hm & Hs)] Hmm. split; [exact Hd |].
  unfold time_ok, replace_minute. simpl. lia.
Qed.

Lemma end_of_day_ok x : dt_ok x -> dt_ok (end_of_day x).
Proof.
  intros [Hd _]. split; [exact Hd |]. unfold time_ok, end_of_day. simpl. lia.
Qed.

Lemma era_id_date a b : dt_date a = dt_date b -> era_id a = era_id b.
Proof.
  destruct a as [da ha ma sa], b as [db hb mb sb]. simpl. intros ->.
  unfold era_id, era_width. simpl dt_date.
  destruct (date_leb (mkdate 2013 4 1) db); [reflexivity |].
  destruct (date_leb (mkdate 2006 1 1) db); reflexivity.
Qed.

(** Every quarter-hour stamp of a day truncates to the identifier of the
    day's end-of-day stamp. *)
Lemma v1_truncate_quarter parse d x :
  parse_spec parse -> date_ok d -> x ∈ day_stamps d ->
  v1_truncate parse 1 x = Ok (era_id (end_of_day (midnight d))).
Proof.
  intros Hparse Hd Hx. unfold day_stamps in Hx.
  apply list_elem_of_fmap in Hx as (k & -> & Hk). apply elem_of_seqZ in Hk.
  rewrite (v1_truncate_stamp parse _ Hparse) by (apply quarter_of_ok; [done | lia]).
  f_equal. by apply era_id_date.
Qed.

Lemma v1_truncate_days parse ds :
  parse_spec parse -> Forall date_ok ds ->
  result_map (v1_truncate parse 1) (concat (day_stamps <$> ds))
  = Ok (concat ((fun d => replicate 96 (era_id (end_of_day (midnight d))))
                  <$> ds)).
Proof.
  intros Hparse Hds. induction Hds as [| d ds Hd Hds IH]; [reflexivity |].
  rewrite !fmap_cons. cbn [concat].
  assert (forall (l1 l2 : list string) r1 r2,
             result_map (v1_truncate parse 1) l1 = Ok r1 ->
             result_map (v1_truncate parse 1) l2 = Ok r2 ->
             result_map (v1_truncate parse 1) (l1 ++ l2) = Ok (r1 ++ r2)) as Happ.
  { induction l1 as [| x l1 IHl]; intros l2 r1 r2 H1 H2.
    - injection H1 as <-. exact H2.
    - cbn [result_map app] in *.
      destruct (v1_truncate parse 1 x) as [y |]; [| discriminate].
      rewrite bind_Ok in *.
      destruct (result_map (v1_truncate parse 1) l1) as [r1' |] eqn:Hr1;
        [| discriminate].
      rewrite bind_Ok in H1. injection H1 as <-.
      by rewrite (IHl l2 r1' r2 eq_refl H2). }
  apply Happ; [| exact IH].
  rewrite (result_map_ok _ (fun _ => era_id (end_of_day (midnight d)))).
  - reflexivity.
  - intros x Hx. by apply v1_truncate_quarter.
Qed.

(** ** Lemmas on the pipeline *)

Lemma M_bind_lift_Ok {A B} (a : A) (k : A -> M B) : (lift (Ok a) ≫= k) = k a.
Proof. unfold lift. cbn [mbind M_bind]. by destruct (k a). Qed.

Lemma M_bind_lift_Raise {A B} (e : exn) (k : A -> M B) :
  (lift (Raise e) ≫= k) = ([], Raise e).
Proof. reflexivity. Qed.

Lemma M_bind_tell {B} (e : event) (k : unit -> M B) :
  (tell e ≫= k) = (e :: (k tt).1, (k tt).2).
Proof. unfold tell. cbn [mbind M_bind]. by destruct (k tt). Qed.

Lemma M_bind_pair_Ok {A B} (t : list event) (a : A) (k : A -> M B) :
  ((t, Ok a) ≫= k) = (t ++ (k a).1, (k a).2).
Proof. cbn [mbind M_bind]. by destruct (k a). Qed.

Lemma M_bind_tell_all {B} (es : list event) (k : unit -> M B) :
  (tell_all es ≫= k) = (es ++ (k tt).1, (k tt).2).
Proof. unfold tell_all. cbn [mbind M_bind]. by destruct (k tt). Qed.

Lemma aligned_rows_length (cols : list value) (l : list DataFrame) :
  length (df ← l; (fun row => cell_at (columns df) row <$> cols) <$> rows df)
  = sum_list_with df_len l.
Proof.
  induction l as [| x l IH]; [reflexivity |].
  rewrite bind_cons, length_app, length_fmap, IH. reflexivity.
Qed.

Lemma pd_concat_len dfs results :
  pd_concat dfs = Ok results ->
  df_len results = sum_list_with df_len dfs.
Proof.
  unfold pd_concat. destruct dfs as [| df dfs]; [discriminate |].
  intros [= <-].
  exact (aligned_rows_length (union_columns (df :: dfs)) (df :: dfs)).
Qed.

Lemma pd_concat_nonempty dfs :
  dfs <> [] -> exists results, pd_concat dfs = Ok results.
Proof. destruct dfs; [contradiction |]. intros _. eexists. reflexivity. Qed.

Lemma reset_index_fresh df :
  index (reset_index df) = seqZ 0 (Z.of_nat (df_len df))
  /\ rows (reset_index df) = rows df
  /\ columns (reset_index df) = columns df.
Proof. by split_and!. Qed.

Section PipelineFacts.

Variable parse : string -> option datetime.
Variable now : datetime.
Variable dateInputCheck : DateSpec -> Z -> result unit.
Variable urlBuilder : string -> Z -> string -> string.
Variable mp_worker : string -> option string -> result DataFrame.
Variable cameos : value -> value.
Variables events1Heads events2Heads mentionsHeads gkgHeads : list value.
Variable completion : list string -> list string.
Variable mp_worker_seq : stamps -> option string -> result DataFrame.
Variable iter_url : string -> result (list string).
Variable table_is_literal : bool.
Variable stale_download_list : option stamps.
Variable version : Z.

Local Abbreviation Search' :=
  (Search parse now dateInputCheck urlBuilder mp_worker cameos events1Heads
     events2Heads mentionsHeads gkgHeads completion mp_worker_seq iter_url
     table_is_literal stale_download_list version).
Local Abbreviation plan' :=
  (plan parse now urlBuilder events1Heads events2Heads mentionsHeads
     gkgHeads table_is_literal version).
Local Abbreviation download' :=
  (download mp_worker completion mp_worker_seq iter_url stale_download_list).

Lemma resolve_v1_coverage spec c1 c2 :
  resolve parse now spec 1 c1 = resolve parse now spec 1 c2.
Proof.
  unfold resolve. destruct (dateRanger parse spec) as [el |]; [| reflexivity].
  rewrite !bind_Ok. destruct c1, c2, el; reflexivity.
Qed.

(** The resolved timestamps are one string exactly for a single day that
    is not expanded: coverage off, or version 1. *)
Lemma resolve_is_str spec v c st :
  resolve parse now spec v c = Ok st ->
  is_str st = true
  <-> (exists e, dateRanger parse spec = Ok (ArrDt e))
      /\ c && negb (v =? 1) = false.
Proof.
  unfold resolve. destruct (dateRanger parse spec) as [[s | e | l] |];
    [| | | discriminate]; rewrite bind_Ok.
  - discriminate.
  - destruct (c && negb (v =? 1)) eqn:Hc.
    + unfold gdeltRangeString. rewrite Hc.
      assert ((v =? 1) = false) as Hv
        by (destruct c, (v =? 1); simpl in Hc; congruence).
      unfold v1_datestrings. rewrite Hv.
      destruct (date_eqb _ _); destruct (result_map _ _); simpl;
        intros [= <-]; (split; [discriminate | intros [_ ?]; discriminate]).
    + rewrite gdeltRangeString_single_plain by exact Hc.
      unfold v1_datestrings. destruct (v =? 1).
      * destruct (v1_truncate _ _ _); simpl; [| discriminate].
        intros [= <-]. split; eauto.
      * intros [= <-]. split; eauto.
  - intros Hres. split; [| intros [[e [=]] _]].
    intros Hstr. exfalso. revert Hres. unfold gdeltRangeString, v1_datestrings.
    destruct (c && negb (v =? 1)).
    + destruct (result_map _ l) as [[| x ls] |]; simpl; try discriminate.
      destruct (v =? 1); simpl; [discriminate |].
      intros [= <-]. discriminate.
    + rewrite bind_Ok. destruct (v =? 1).
      * destruct (result_map _ _); simpl; [| discriminate].
        intros [= <-]. discriminate.
      * intros [= <-]. discriminate.
Qed.

(** [Search] once the input check and the resolution have passed. *)
Lemma Search_after_plan spec table coverage st cols dl :
  dateInputCheck spec version = Ok tt ->
  resolve parse now spec version coverage = Ok st ->
  plan' spec table coverage = Ok (cols, dl) ->
  Search' spec table coverage
  = ((download' st table dl).1,
     (download' st table dl).2
       ≫= finish cameos version table cols).
Proof.
  intros Hcheck Hres Hplan. unfold Search.
  rewrite Hcheck, M_bind_lift_Ok, Hres, M_bind_lift_Ok, Hplan, M_bind_lift_Ok.
  destruct (download' st table dl) as [tr [df | e]];
    cbn [mbind M_bind lift fst snd result_bind]; by rewrite ?app_nil_r.
Qed.

(** The download list has the shape of the resolved timestamps: it is
    their image under the URL builder. *)
Lemma plan_download_list spec table coverage st cols dl :
  resolve parse now spec version coverage = Ok st ->
  plan' spec table coverage = Ok (cols, Some dl) ->
  exists t, dl = urls urlBuilder st version t.
Proof.
  intros Hres. unfold plan.
  destruct (decide (version = 1)) as [Hv1 | Hv1].
  - assert (forall c, resolve parse now spec 1 c = Ok st) as Hall.
    { intros c. rewrite (resolve_v1_coverage spec c coverage).
      by rewrite <- Hv1. }
    rewrite (bool_decide_eq_true_2 _ Hv1). rewrite Hv1.
    destruct table_is_literal; repeat case_bool_decide; simpl;
      try destruct coverage;
      rewrite ?Hall, ?bind_Ok; try discriminate; intros [= <- <-]; eauto.
  - rewrite (bool_decide_eq_false_2 _ Hv1).
    destruct (decide (version = 2)) as [Hv2 | Hv2].
    + rewrite (bool_decide_eq_true_2 _ Hv2). revert Hres. rewrite Hv2.
      intros Hres.
      repeat case_bool_decide; simpl; rewrite ?Hres, ?bind_Ok;
        try discriminate; intros [= <- <-]; eauto.
    + rewrite (bool_decide_eq_false_2 _ Hv2). discriminate.
Qed.

End PipelineFacts.

Section DownloadFacts.

Variable mp_worker : string -> option string -> result DataFrame.
Variable completion : list string -> list string.
Variable mp_worker_seq : stamps -> option string -> result DataFrame.
Variable iter_url : string -> result (list string).
Variable stale_download_list : option stamps.

Local Abbreviation download' :=
  (download mp_worker completion mp_worker_seq iter_url stale_download_list).

Lemma download_inline s table url :
  download' (One s) table (Some (One url))
  = ([Inline url],
     mp_worker url (if bool_decide (table = "events"%string)
                    then Some "events"%string else None)).
Proof.
  unfold download. cbn [is_str get_download_list].
  case_bool_decide; reflexivity.
Qed.

Lemma visited_sequence dl :
  is_str dl = false -> visited iter_url dl = Ok (items dl).
Proof. by destruct dl. Qed.

(** The pool branch up to the results of the workers. *)
Lemma download_pool_submitted st table dl :
  is_str st = false -> table <> "events"%string -> is_str dl = false ->
  download' st table (Some dl)
  = (PoolOpen :: (Pooled <$> completion (items dl))
       ++ (dfs ← lift (result_map (fun url => mp_worker url None)
                         (completion (items dl)));
           _ ← tell PoolClose;
           results ← lift (pd_concat dfs);
           mret (reset_index results)).1,
     (dfs ← lift (result_map (fun url => mp_worker url None)
                    (completion (items dl)));
      _ ← tell PoolClose;
      results ← lift (pd_concat dfs);
      mret (reset_index results)).2).
Proof.
  intros Hstr Htable Hdl. unfold download.
  rewrite Hstr, (bool_decide_eq_false_2 _ Htable).
  change (get_download_list stale_download_list (Some dl))
    with (lift (Ok dl)).
  rewrite M_bind_tell. cbv beta. rewrite M_bind_lift_Ok.
  rewrite (visited_sequence dl Hdl), M_bind_lift_Ok.
  rewrite M_bind_tell_all. reflexivity.
Qed.

Lemma download_pool st table dl dfs :
  is_str st = false -> table <> "events"%string -> is_str dl = false ->
  result_map (fun url => mp_worker url None) (completion (items dl)) = Ok dfs ->
  download' st table (Some dl)
  = (PoolOpen :: (Pooled <$> completion (items dl)) ++ [PoolClose],
     pd_concat dfs ≫= fun results => Ok (reset_index results)).
Proof.
  intros Hstr Htable Hdl Hdfs.
  rewrite (download_pool_submitted st table dl Hstr Htable Hdl), Hdfs.
  rewrite M_bind_lift_Ok, M_bind_tell. cbv beta.
  destruct (pd_concat dfs) as [results | e]; reflexivity.
Qed.

Lemma download_pool_failure st table dl e :
  is_str st = false -> table <> "events"%string -> is_str dl = false ->
  result_map (fun url => mp_worker url None) (completion (items dl))
  = Raise e ->
  download' st table (Some dl)
  = (PoolOpen :: (Pooled <$> completion (items dl)), Raise e).
Proof.
  intros Hstr Htable Hdl Hdfs.
  rewrite (download_pool_submitted st table dl Hstr Htable Hdl), Hdfs.
  rewrite M_bind_lift_Raise. cbn [fst snd]. by rewrite app_nil_r.
Qed.

End DownloadFacts.

Section FinishFacts.

Variable cameos : value -> value.
Variable version : Z.

Lemma not_gkg1 table :
  ~ (table = "gkg"%string /\ version = 1) ->
  bool_decide (table = "gkg"%string) && bool_decide (version = 1) = false.
Proof.
  intros Hnot. apply andb_false_iff. rewrite !bool_decide_eq_false.
  destruct (decide (table = "gkg"%string)); [right | left]; tauto.
Qed.

Lemma ix0_empty results :
  df_len results = 0%nat -> ix0 results = Raise (KeyError "0").
Proof.
  unfold df_len, ix0. intros Hlen. apply length_zero_iff_nil in Hlen.
  rewrite Hlen. destruct (list_find _ _) as [[p i] |]; [| reflexivity].
  by rewrite lookup_nil.
Qed.

Lemma finish_empty_named table cols results :
  df_len results = 0%nat ->
  ~ (table = "gkg"%string /\ version = 1) ->
  length cols = length (columns results) ->
  finish cameos version table (Some cols) results = Raise no_data.
Proof.
  intros Hlen Hnot Hcols. unfold finish.
  rewrite (not_gkg1 _ Hnot).
  unfold set_columns. rewrite (bool_decide_eq_true_2 _ Hcols), bind_Ok.
  unfold df_len in *. cbn [rows].
  by rewrite (bool_decide_eq_true_2 _ Hlen).
Qed.

Lemma finish_empty_width table cols results :
  ~ (table = "gkg"%string /\ version = 1) ->
  length cols <> length (columns results) ->
  finish cameos version table (Some cols) results
  = Raise (ValueError "Length mismatch").
Proof.
  intros Hnot Hcols. unfold finish.
  rewrite (not_gkg1 _ Hnot).
  unfold set_columns. by rewrite (bool_decide_eq_false_2 _ Hcols).
Qed.

Lemma finish_empty_gkg1 cols results :
  df_len results = 0%nat -> version = 1 ->
  finish cameos version "gkg" cols results = Raise (KeyError "0").
Proof.
  intros Hlen Hv. unfold finish.
  rewrite (bool_decide_eq_true_2 _ Hv).
  change (bool_decide ("gkg"%string = "gkg"%string) && true) with true.
  cbv iota. by rewrite (ix0_empty _ Hlen).
Qed.

Lemma finish_empty_raises table cols results :
  df_len results = 0%nat ->
  is_raise (finish cameos version table cols results).
Proof.
  intros Hlen.
  destruct (decide (table = "gkg"%string /\ version = 1)) as [[-> Hv] | Hnot].
  - by rewrite (finish_empty_gkg1 _ _ Hlen Hv).
  - destruct cols as [cols |].
    + destruct (decide (length cols = length (columns results))) as [Hc | Hc].
      * by rewrite (finish_empty_named _ _ _ Hlen Hnot Hc).
      * by rewrite (finish_empty_width _ _ _ Hnot Hc).
    + unfold finish.
      rewrite (not_gkg1 _ Hnot). exact I.
Qed.

Lemma df_insert_len loc name vals df df' :
  df_insert loc name vals df = Ok df' ->
  length vals = df_len df -> df_len df' = df_len df.
Proof.
  unfold df_insert, df_len. repeat case_bool_decide; try discriminate.
  intros [= <-] Hvals. cbn [rows]. rewrite length_zip_with. lia.
Qed.

Lemma column_len name df codes :
  column name df = Ok codes -> length codes = df_len df.
Proof.
  unfold column, df_len. destruct (list_find _ _) as [[p c] |]; [| discriminate].
  intros [= <-]. by rewrite length_fmap.
Qed.

Lemma finish_nonempty table cols results df :
  finish cameos version table cols results = Ok df -> df_len df <> 0%nat.
Proof.
  unfold finish.
  destruct (if bool_decide (table = "gkg"%string) && bool_decide (version = 1)
            then _ else _) as [named |]; [| discriminate].
  rewrite bind_Ok. case_bool_decide as Hlen; [discriminate |].
  case_bool_decide.
  - destruct (column "EventCode" named) as [codes |] eqn:Hcodes;
      [| discriminate].
    rewrite bind_Ok. intros Hins.
    apply df_insert_len in Hins;
      [| by rewrite length_fmap, (column_len _ _ _ Hcodes)].
    congruence.
  - intros [= <-]. exact Hlen.
Qed.

(** For the 'events' table the description column stands at position 27
    of every table [Search] returns. *)
Lemma finish_events_description_column cols results df :
  finish cameos version "events" cols results = Ok df ->
  columns df !! 27%nat = Some (VStr "CAMEOCodeDescription").
Proof.
  unfold finish.
  change (bool_decide ("events"%string = "gkg"%string)) with false.
  change (bool_decide ("events"%string = "events"%string)) with true.
  cbn [andb].
  destruct (match cols with
            | Some c => set_columns results c
            | None => Raise (NameError "columns")
            end) as [named |]; [| discriminate].
  rewrite bind_Ok. case_bool_decide; [discriminate |].
  destruct (column "EventCode" named) as [codes |]; [| discriminate].
  rewrite bind_Ok. unfold df_insert.
  case_bool_decide; [discriminate |].
  case_bool_decide as Hwidth; [discriminate |].
  intros [= <-]. cbn [columns]. unfold insert_at.
  rewrite lookup_app_r by (rewrite length_take; lia).
  rewrite length_take.
  replace (27 - 27 `min` length (columns named))%nat with 0%nat by lia.
  reflexivity.
Qed.

End FinishFacts.

(** * The claims *)

(** C1 (the code departs from it). Version 2 with coverage off, the
    single-day spec [["2016-10-19"]] on any later day: the resolver answers
    one timestamp, but it is the day's midnight hour with the minute of the
    current clock floored to a quarter, never the end-of-day marker
    [20161019234500]; the list branch of the same function does answer that
    marker, as for the range [["2016-10-19", "2016-10-19"]], and answers it
    for every member of a list, the current day included. *)
Theorem single_day_stamp_takes_clock_minute
  (parse : string -> option datetime) (now : datetime)
  (Hparse : parse_spec parse)
  (Hnot_today : dt_date now <> mkdate 2016 10 19) :
  resolve parse now (DList ["2016-10-19"%string]) 2 false
    = Ok (One (strftime (mkdt (mkdate 2016 10 19) 0
                           (15 * (minute now / 15)) 0)))
  /\ resolve parse now (DList ["2016-10-19"%string]) 2 false
     <> Ok (One "20161019234500")
  /\ resolve parse now
       (DList ["2016-10-19"%string; "2016-10-19"%string]) 2 false
     = Ok (Lst ["20161019234500"%string])
  /\ (forall l,
        gdeltRangeString parse now (ArrList l) false 2
        = Ok (Lst ((fun x => strftime (mkdt (dt_date x) 23 45 0)) <$> l))).
Proof.
  assert (date_ok (mkdate 2016 10 19)) as Hd
    by (vm_compute; intuition discriminate).
  pose proof (parse_ymd parse Hparse (mkdate 2016 10 19) Hd) as Hday.
  change (strftime_ymd (mkdate 2016 10 19)) with "2016-10-19"%string in Hday.
  assert (resolve parse now (DList ["2016-10-19"%string]) 2 false
          = Ok (One (strftime (mkdt (mkdate 2016 10 19) 0
                                 (15 * (minute now / 15)) 0)))) as Heq.
  { unfold resolve, dateRanger.
    change (bool_decide (length ["2016-10-19"%string] = 1%nat)) with true.
    change (String.concat "" ["2016-10-19"%string]) with "2016-10-19"%string.
    unfold parse_raising at 1. rewrite Hday. cbv iota. rewrite !bind_Ok.
    rewrite gdeltRangeString_single_plain by reflexivity.
    rewrite date_eqb_neq by (simpl; congruence).
    reflexivity. }
  split_and!.
  - exact Heq.
  - rewrite Heq. intros H.
    apply (f_equal (fun r => match r with
                             | Ok (One s) => String.get 8 s
                             | _ => None
                             end)) in H.
    discriminate H.
  - unfold resolve.
    rewrite (dateRanger_pair parse Hparse _ _ _ _ Hday Hday Hd Hd).
    change (datetime64_D (dt_date (midnight (mkdate 2016 10 19)))
            - datetime64_D (dt_date (midnight (mkdate 2016 10 19)))) with 0.
    rewrite bind_Ok. reflexivity.
  - intros l. by rewrite gdeltRangeString_list_plain.
Qed.

(** C1 at the clock reading 2016-11-03 10:37:12: the stamp is 00:30:00. *)
Lemma single_day_stamp_takes_clock_minute_witness :
  resolve parse_model sample_now (DList ["2016-10-19"%string]) 2 false
  = Ok (One "20161019003000").
Proof.
  refine (proj1 (single_day_stamp_takes_clock_minute parse_model sample_now
                   parse_model_spec _)).
  vm_compute. discriminate.
Defined.

(** C2. Version 2 with coverage on: a day that is not the current day
    expands to exactly 96 stamps of 14 digits ([YYYYMMDDHHMMSS]); stamp
    number [k] is the instant [15 * k] minutes after that day's midnight, on
    that same day, so the stamps are strictly increasing and a quarter-hour
    apart; the first is 00:00:00 and the last 23:45:00.  The days of a
    multi-day list expand in the same way, one after the other. *)
Theorem coverage_expands_day_to_96_quarters
  (parse : string -> option datetime) (now : datetime) (d : date)
  (ds : list date)
  (Hparse : parse_spec parse) (Hd : date_ok d) (Hnot_today : d <> dt_date now)
  (Hds : Forall date_ok ds) (Hne : ds <> []) :
  gdeltRangeString parse now (ArrDt (midnight d)) true 2
    = Ok (Arr (day_stamps d))
  /\ gdeltRangeString parse now (ArrList (midnight <$> ds)) true 2
    = Ok (Arr (concat (day_stamps <$> ds)))
  /\ length (day_stamps d) = 96%nat
  /\ (forall k, 0 <= k < 96 ->
        exists dt,
          day_stamps d !! Z.to_nat k = Some (strftime dt)
          /\ String.length (strftime dt) = 14%nat
          /\ parse (strftime dt) = Some dt
          /\ dt_date dt = d
          /\ seconds_of dt = seconds_of (midnight d) + 15 * 60 * k)
  /\ head (day_stamps d) = Some (strftime (mkdt d 0 0 0))
  /\ last (day_stamps d) = Some (strftime (mkdt d 23 45 0)).
Proof.
  split_and!.
  - rewrite gdeltRangeString_other_coverage by (simpl; auto; lia).
    rewrite (expand_day parse Hparse) by exact Hd. reflexivity.
  - rewrite gdeltRangeString_list_coverage by lia.
    rewrite (expand_days parse Hparse) by exact Hds. rewrite bind_Ok.
    destruct ds as [| d0 ds']; [contradiction |]. reflexivity.
  - reflexivity.
  - intros k Hk. exists (quarter_of d k). split_and!.
    + by apply day_stamps_lookup.
    + reflexivity.
    + apply (parse_stamp parse Hparse). by apply quarter_of_ok.
    + reflexivity.
    + rewrite seconds_of_quarter by exact Hk. lia.
  - reflexivity.
  - reflexivity.
Qed.

(** C2 at the day 2016-10-19. *)
Lemma coverage_expands_day_to_96_quarters_witness :
  gdeltRangeString parse_model sample_now
    (ArrDt (midnight (mkdate 2016 10 19))) true 2
  = Ok (Arr (day_stamps (mkdate 2016 10 19))).
Proof.
  refine (proj1 (coverage_expands_day_to_96_quarters parse_model sample_now
                   (mkdate 2016 10 19) [mkdate 2016 10 19] parse_model_spec
                   _ _ _ _)).
  - vm_compute. intuition discriminate.
  - discriminate.
  - repeat constructor; vm_compute; discriminate.
  - discriminate.
Defined.

(** C3. A two-element date spec [[a, b]] whose first day is not after its
    second normalizes to the days from [a] to [b], both included: the list
    has [(b - a).days + 1] entries, entry [i] is midnight of the day [i]
    days after [a], the first entry is day [a], the last (the one appended
    after the end-exclusive range) is day [b], and every calendar day in
    between is in the list. *)
Theorem dateRanger_pair_inclusive
  (parse : string -> option datetime) (a b : string) (da db : datetime)
  (Hparse : parse_spec parse)
  (Ha : parse a = Some da) (Hb : parse b = Some db)
  (Hda : date_ok (dt_date da)) (Hdb : date_ok (dt_date db))
  (Hchrono : toordinal (dt_date da) <= toordinal (dt_date db)) :
  exists l,
    dateRanger parse (DList [a; b]) = Ok (ArrList l)
    /\ Z.of_nat (length l) = days_between (dt_date da) (dt_date db) + 1
    /\ l = (fun n => midnight (date_of_days n))
             <$> seqZ (datetime64_D (dt_date da))
                   (days_between (dt_date da) (dt_date db) + 1)
    /\ head l = Some (midnight (dt_date da))
    /\ last l = Some (midnight (dt_date db))
    /\ (forall d, valid_date d ->
          toordinal (dt_date da) <= toordinal d <= toordinal (dt_date db) ->
          midnight d ∈ l).
Proof.
  destruct Hda as [Hva Hya], Hdb as [Hvb Hyb].
  assert (0 <= days_between (dt_date da) (dt_date db)) as Hn
    by (unfold days_between; lia).
  eexists. split.
  { rewrite (dateRanger_pair parse Hparse a b da db) by (try split; assumption).
    rewrite days_range_snoc by assumption. reflexivity. }
  split_and!.
  - rewrite length_fmap, length_seqZ. lia.
  - reflexivity.
  - rewrite seqZ_cons by lia. cbn [fmap list_fmap head].
    by rewrite date_of_days_datetime64.
  - rewrite <- days_range_snoc by assumption. apply last_snoc.
  - intros d Hd Hrange. apply list_elem_of_fmap.
    exists (datetime64_D d). split.
    + by rewrite date_of_days_datetime64.
    + apply elem_of_seqZ. unfold days_between, datetime64_D. lia.
Qed.

(** C3 at the range 2016-10-19 to 2016-10-21: three days. *)
Lemma dateRanger_pair_inclusive_witness :
  exists l,
    dateRanger parse_model (DList ["2016-10-19"; "2016-10-21"]%string)
    = Ok (ArrList l)
    /\ Z.of_nat (length l) = 3.
Proof.
  destruct (dateRanger_pair_inclusive parse_model "2016-10-19" "2016-10-21"
              (midnight (mkdate 2016 10 19)) (midnight (mkdate 2016 10 21))
              parse_model_spec eq_refl eq_refl)
    as (l & Hl & Hlen & _).
  - vm_compute. intuition discriminate.
  - vm_compute. intuition discriminate.
  - vm_compute. discriminate.
  - exists l. split; [exact Hl | exact Hlen].
Defined.

(** C4. Version 1: the identifier kept for a resolved timestamp has exactly
    8 characters ([YYYYMMDD]) when the timestamp is dated on or after
    2013-04-01, exactly 4 ([YYYY]) when it is dated before 2006-01-01, and
    exactly 6 ([YYYYMM]) in between; a single day resolves to the identifier
    of its one timestamp, and a list of days to the identifiers of its
    end-of-day timestamps with every duplicate removed. *)
Theorem v1_era_truncation_dedup
  (parse : string -> option datetime) (now : datetime) (coverage : bool)
  (e : datetime) (l : list datetime)
  (Hparse : parse_spec parse) (Hnow : dt_ok now) (He : dt_ok e)
  (Hl : Forall dt_ok l) :
  (* a single day *)
  gdeltRangeString parse now (ArrDt e) coverage 1
    = Ok (One (era_id (if date_eqb (dt_date e) (dt_date now)
                       then floor15 now
                       else replace_minute e (15 * (minute now / 15)))))
  (* a list of days *)
  /\ (exists ids,
        gdeltRangeString parse now (ArrList l) coverage 1 = Ok (Lst ids)
        /\ NoDup ids
        /\ forall s, s ∈ ids <-> exists x, x ∈ l /\ s = era_id (end_of_day x))
  (* the width and the text of an identifier *)
  /\ (forall dt,
        String.length (era_id dt) = era_width (dt_date dt)
        /\ (date_leb (mkdate 2013 4 1) (dt_date dt) = true ->
            era_width (dt_date dt) = 8%nat
            /\ era_id dt = zpad4 (year (dt_date dt))
                           +:+ zpad2 (month (dt_date dt))
                           +:+ zpad2 (day (dt_date dt)))
        /\ (date_leb (mkdate 2006 1 1) (dt_date dt) = false ->
            era_width (dt_date dt) = 4%nat
            /\ era_id dt = zpad4 (year (dt_date dt)))
        /\ (date_leb (mkdate 2006 1 1) (dt_date dt) = true ->
            date_leb (mkdate 2013 4 1) (dt_date dt) = false ->
            era_width (dt_date dt) = 6%nat
            /\ era_id dt = zpad4 (year (dt_date dt))
                           +:+ zpad2 (month (dt_date dt)))).
Proof.
  assert (coverage && negb (1 =? 1) = false) as Hc by apply andb_false_r.
  assert (0 <= 15 * (minute now / 15) < 60) as Hq.
  { destruct Hnow as [_ (_ & Hm & _)]. div_lia. }
  split_and!.
  - rewrite gdeltRangeString_single_plain by exact Hc.
    unfold v1_datestrings. change (1 =? 1) with true. cbv iota.
    rewrite v1_truncate_stamp; [reflexivity | exact Hparse |].
    destruct (date_eqb _ _);
      [by apply floor15_ok | by apply replace_minute_ok].
  - eexists. split_and!.
    + rewrite gdeltRangeString_list_plain by exact Hc.
      unfold v1_datestrings. change (1 =? 1) with true. cbv iota.
      rewrite (result_map_fmap_ok _ _ (fun x => era_id (end_of_day x))).
      * rewrite bind_Ok. reflexivity.
      * intros x Hx. apply v1_truncate_stamp; [exact Hparse |].
        apply end_of_day_ok. rewrite Forall_forall in Hl. by apply Hl.
    + apply NoDup_elements.
    + intros s. rewrite elem_of_elements, elem_of_list_to_set, list_elem_of_fmap.
      split; intros (x & H1 & H2); exists x; auto.
  - intros dt. split_and!.
    + apply era_id_length.
    + intros H13. unfold era_id, era_width. rewrite H13. split; reflexivity.
    + intros H06. unfold era_id, era_width. rewrite H06.
      destruct (date_leb (mkdate 2013 4 1) (dt_date dt)) eqn:H13.
      * exfalso. unfold date_leb in *.
        apply Z.leb_le in H13. apply Z.leb_gt in H06.
        revert H13 H06. generalize (toordinal (dt_date dt)). intros o.
        change (toordinal (mkdate 2013 4 1)) with 734959.
        change (toordinal (mkdate 2006 1 1)) with 732312. lia.
      * split; reflexivity.
    + intros H06 H13. unfold era_id, era_width. rewrite H06, H13.
      split; reflexivity.
Qed.

(** C4 at the day 2010-10-19: a monthly identifier. *)
Lemma v1_era_truncation_dedup_witness :
  gdeltRangeString parse_model sample_now
    (ArrDt (midnight (mkdate 2010 10 19))) true 1
  = Ok (One "201010").
Proof.
  refine (proj1 (v1_era_truncation_dedup parse_model sample_now true
                   (midnight (mkdate 2010 10 19))
                   [midnight (mkdate 2010 10 19)] parse_model_spec _ _ _)).
  - vm_compute. intuition discriminate.
  - vm_compute. intuition discriminate.
  - repeat constructor; vm_compute; discriminate.
Defined.

(** C7 (the code departs from it). Version 2 with coverage on: a single-day
    spec of the current day stops at the quarter-hour of the clock, but the
    current day inside a multi-day list expands to all 96 quarters like any
    other day, 23:45:00 included. *)
Theorem today_in_list_expands_to_end_of_day
  (parse : string -> option datetime) (now : datetime) (ds : list date)
  (Hparse : parse_spec parse) (Hnow : dt_ok now)
  (Hds : Forall date_ok ds) (Htoday : dt_date now ∈ ds) :
  gdeltRangeString parse now (ArrDt (midnight (dt_date now))) true 2
    = Ok (Arr (take (Z.to_nat (hour now * 4 + minute now / 15 + 1))
                 (day_stamps (dt_date now))))
  /\ gdeltRangeString parse now (ArrList (midnight <$> ds)) true 2
     = Ok (Arr (concat (day_stamps <$> ds)))
  /\ strftime (mkdt (dt_date now) 23 45 0) ∈ concat (day_stamps <$> ds).
Proof.
  split_and!.
  - rewrite gdeltRangeString_today_coverage by (simpl; auto; lia).
    rewrite times_eq, <- fmap_take.
    rewrite (result_map_fmap_ok _ _ (fun k => strftime (quarter_of (dt_date now) k))).
    + rewrite bind_Ok. unfold day_stamps. rewrite fmap_take.
      do 3 f_equal. lia.
    + intros k Hk. apply (subseteq_take _ _ k) in Hk.
      apply elem_of_seqZ in Hk.
      apply (quarter_stamp_midnight parse Hparse); [apply Hnow | lia].
  - rewrite gdeltRangeString_list_coverage by lia.
    rewrite (expand_days parse Hparse) by exact Hds. rewrite bind_Ok.
    destruct ds as [| d0 ds']; [by apply elem_of_nil in Htoday |]. reflexivity.
  - apply list_elem_of_In, in_concat.
    exists (day_stamps (dt_date now)). split; apply list_elem_of_In.
    + apply list_elem_of_fmap. by exists (dt_date now).
    + apply list_elem_of_lookup. exists 95%nat.
      apply (day_stamps_lookup (dt_date now) 95). lia.
Qed.

(** C7 at the list of 2016-11-02 and 2016-11-03, read on 2016-11-03 at
    10:37:12. *)
Lemma today_in_list_expands_to_end_of_day_witness :
  gdeltRangeString parse_model sample_now
    (ArrList [midnight (mkdate 2016 11 2); midnight (mkdate 2016 11 3)]) true 2
  = Ok (Arr (day_stamps (mkdate 2016 11 2) ++ day_stamps (mkdate 2016 11 3)))
  /\ "20161103234500"%string
     ∈ day_stamps (mkdate 2016 11 2) ++ day_stamps (mkdate 2016 11 3).
Proof.
  refine (proj2 (today_in_list_expands_to_end_of_day parse_model sample_now
                   [mkdate 2016 11 2; mkdate 2016 11 3] parse_model_spec
                   _ _ _)).
  - vm_compute. intuition discriminate.
  - repeat constructor; vm_compute; discriminate.
  - apply elem_of_cons. right. apply elem_of_cons. left. reflexivity.
Defined.

(** C8 (the claim fails here). The empty string and a string that is not
    a date both come back from the date normalizer as ordinary values; no
    error is raised. *)
Lemma dateRanger_returns_fallback_for_bad_string :
  ~ is_raise (dateRanger parse_model (DStr ""))
  /\ ~ is_raise (dateRanger parse_model (DStr "not a date")).
Proof. split; intros H; exact H. Qed.

(** C8 (amended). For a single string the date normalizer never raises:
    the empty string gives the value ["crazy"], and a non-empty string the
    parser rejects gives the message "You entered an incorrect date.  Check
    your date format." in place of a day list.  The empty list raises a
    [ValueError], and so does every list that holds a string the parser
    rejects. *)
Theorem dateRanger_bad_input
  (parse : string -> option datetime) (s : string) (Hbad : parse s = None) :
  dateRanger parse (DStr "") = Ok (ArrStr "crazy")
  /\ dateRanger parse (DStr s)
     = Ok (ArrStr (if bool_decide (s = ""%string) then "crazy"
                   else "You entered an incorrect date.  Check your date format."))
  /\ (exists msg, dateRanger parse (DList []) = Raise (ValueError msg))
  /\ (forall l, s ∈ l ->
        exists msg, dateRanger parse (DList l) = Raise (ValueError msg)).
Proof.
  assert (forall x, x = s -> parse_raising parse x
                             = Raise (ValueError "Unknown string format")) as Hs.
  { intros x ->. unfold parse_raising. by rewrite Hbad. }
  split_and!.
  - reflexivity.
  - unfold dateRanger, parse_date. rewrite Hbad.
    destruct s; reflexivity.
  - eexists. reflexivity.
  - intros l Hin. unfold dateRanger.
    destruct l as [| x [| y [| z l']]].
    + by apply elem_of_nil in Hin.
    + apply list_elem_of_singleton in Hin as ->.
      exists "Unknown string format"%string.
      change (bool_decide (length [x] = 1%nat)) with true. cbv iota.
      change (String.concat "" [x]) with x. by rewrite (Hs x eq_refl).
    + change (bool_decide (length [x; y] = 1%nat)) with false.
      change (bool_decide (2 < length [x; y])%nat) with false.
      cbv iota. unfold np_vectorize, dateFormatter. cbn [result_map].
      exists "Unknown string format"%string.
      apply elem_of_cons in Hin as [-> | Hin].
      * by rewrite (Hs x eq_refl).
      * apply list_elem_of_singleton in Hin as ->.
        destruct (parse_raising parse x) as [dx |] eqn:Hx.
        -- rewrite !bind_Ok, (Hs y eq_refl). reflexivity.
        -- rewrite bind_Raise.
           unfold parse_raising in Hx. destruct (parse x); [discriminate |].
           by injection Hx as <-.
    + change (bool_decide (length (x :: y :: z :: l') = 1%nat)) with false.
      replace (bool_decide (2 < length (x :: y :: z :: l'))%nat) with true
        by (symmetry; apply bool_decide_eq_true; simpl; lia).
      cbv iota. exists "Unknown string format"%string.
      assert (result_map (parse_raising parse) (x :: y :: z :: l')
              = Raise (ValueError "Unknown string format")) as ->;
        [| reflexivity].
      revert Hin. generalize (x :: y :: z :: l'). intros l.
      induction l as [| a l IH]; intros Hin; [by apply elem_of_nil in Hin |].
      cbn [result_map].
      destruct (parse_raising parse a) as [da | e] eqn:Ha.
      * rewrite bind_Ok.
        apply elem_of_cons in Hin as [-> | Hin];
          [rewrite (Hs a eq_refl) in Ha; discriminate |].
        by rewrite (IH Hin).
      * rewrite bind_Raise. unfold parse_raising in Ha.
        destruct (parse a); [discriminate |]. by injection Ha as <-.
Qed.

(** C8 at the string ["not a date"]. *)
Lemma dateRanger_bad_input_witness :
  dateRanger parse_model (DStr "not a date")
  = Ok (ArrStr "You entered an incorrect date.  Check your date format.").
Proof.
  exact (proj1 (proj2 (dateRanger_bad_input parse_model "not a date" eq_refl))).
Defined.

(** C10. Version 1: the resolved timestamps are the same with the coverage
    flag on and off, for every input of the resolver, and so are the files
    [Search] downloads and the table it returns.  (Under version 1 the
    resolver never makes the quarter-hour expansion; were the 96 stamps of
    each day handed to the version 1 truncation, they would collapse to the
    identifiers of the end-of-day stamps all the same.) *)
Theorem v1_coverage_flag_has_no_effect
  (parse : string -> option datetime) (ds : list date)
  (Hparse : parse_spec parse) (Hds : Forall date_ok ds) :
  (forall now element,
      gdeltRangeString parse now element true 1
      = gdeltRangeString parse now element false 1)
  /\ (forall now dateInputCheck urlBuilder mp_worker cameos
             events1Heads events2Heads mentionsHeads gkgHeads completion
             mp_worker_seq iter_url table_is_literal stale_download_list
             spec table,
        Search parse now dateInputCheck urlBuilder mp_worker cameos
          events1Heads events2Heads mentionsHeads gkgHeads completion
          mp_worker_seq iter_url table_is_literal stale_download_list 1
          spec table true
        = Search parse now dateInputCheck urlBuilder mp_worker cameos
            events1Heads events2Heads mentionsHeads gkgHeads completion
            mp_worker_seq iter_url table_is_literal stale_download_list 1
            spec table false)
  /\ v1_datestrings parse 1 (Lst (concat (day_stamps <$> ds)))
     = v1_datestrings parse 1
         (Lst ((fun d => strftime (end_of_day (midnight d))) <$> ds)).
Proof.
  assert (forall now element,
             gdeltRangeString parse now element true 1
             = gdeltRangeString parse now element false 1) as Hres.
  { intros now [s | e | l]; reflexivity. }
  split_and!; [exact Hres | |].
  - intros. unfold Search, plan, resolve.
    destruct (dateInputCheck spec 1) as [[] |]; [| reflexivity].
    destruct (dateRanger parse spec) as [element |]; [| reflexivity].
    rewrite !bind_Ok, !(Hres now element). reflexivity.
  - unfold v1_datestrings. change (1 =? 1) with true. cbv iota.
    rewrite (v1_truncate_days parse ds Hparse Hds), bind_Ok.
    rewrite (result_map_fmap_ok _ _
               (fun d => era_id (end_of_day (midnight d)))), bind_Ok.
    + do 3 f_equal. apply set_eq. intros x.
      rewrite !elem_of_list_to_set. split.
      * intros Hx. apply list_elem_of_In, in_concat in Hx as (l & Hl & Hx).
        apply list_elem_of_In, list_elem_of_fmap in Hl as (d & -> & Hd).
        apply list_elem_of_In, elem_of_replicate in Hx as [-> _].
        apply list_elem_of_fmap. by exists d.
      * intros Hx. apply list_elem_of_fmap in Hx as (d & -> & Hd).
        apply list_elem_of_In, in_concat.
        exists (replicate 96 (era_id (end_of_day (midnight d)))). split.
        -- apply list_elem_of_In, list_elem_of_fmap. by exists d.
        -- apply list_elem_of_In, elem_of_replicate. split; [reflexivity | lia].
    + intros d Hd. apply v1_truncate_stamp; [exact Hparse |].
      apply end_of_day_ok. split; [| unfold time_ok; simpl; lia].
      rewrite Forall_forall in Hds. by apply Hds.
Qed.

(** C10 at the days 2010-10-19 and 2010-10-20. *)
Lemma v1_coverage_flag_has_no_effect_witness :
  gdeltRangeString parse_model sample_now
    (ArrList [midnight (mkdate 2010 10 19); midnight (mkdate 2010 10 20)]) true 1
  = gdeltRangeString parse_model sample_now
      (ArrList [midnight (mkdate 2010 10 19); midnight (mkdate 2010 10 20)])
      false 1.
Proof.
  refine (proj1 (v1_coverage_flag_has_no_effect parse_model
                   [mkdate 2010 10 19; mkdate 2010 10 20] parse_model_spec _)
            sample_now _).
  repeat constructor; vm_compute; discriminate.
Defined.

Section PipelineClaims.

Variable parse : string -> option datetime.
Variable now : datetime.
Variable dateInputCheck : DateSpec -> Z -> result unit.
Variable urlBuilder : string -> Z -> string -> string.
Variable mp_worker : string -> option string -> result DataFrame.
Variable cameos : value -> value.
Variables events1Heads events2Heads mentionsHeads gkgHeads : list value.
Variable completion : list string -> list string.
Variable mp_worker_seq : stamps -> option string -> result DataFrame.
Variable iter_url : string -> result (list string).
Variable table_is_literal : bool.
Variable stale_download_list : option stamps.

Local Abbreviation Search' :=
  (Search parse now dateInputCheck urlBuilder mp_worker cameos events1Heads
     events2Heads mentionsHeads gkgHeads completion mp_worker_seq iter_url
     table_is_literal stale_download_list).
Local Abbreviation download' :=
  (download mp_worker completion mp_worker_seq iter_url stale_download_list).
Local Abbreviation plan' :=
  (plan parse now urlBuilder events1Heads events2Heads mentionsHeads gkgHeads
     table_is_literal).

(** C5 (amended). A query whose resolved timestamps are one string (a
    single day, with coverage off or under version 1) makes its single
    fetch inline, with no pool.  A query whose resolved timestamps are a
    list or an array, of whatever length, and whose table is not 'events',
    opens a pool, has every URL of the download list fetched by a pool
    worker and closes the pool; when all fetches succeed the batches are
    concatenated into one table with as many rows as the batches have
    together, and the row index is reset to 0, 1, 2, ... before the columns
    are named. *)
Theorem fetch_inline_for_a_string_pooled_for_a_sequence
  (version : Z) (spec : DateSpec) (table : string) (coverage : bool)
  (st : stamps) (cols : option (list value)) (dl : stamps)
  (Hcheck : dateInputCheck spec version = Ok tt)
  (Hres : resolve parse now spec version coverage = Ok st)
  (Hplan : plan' version spec table coverage = Ok (cols, Some dl)) :
  (is_str st = true ->
   exists url,
     dl = One url
     /\ Search' version spec table coverage
        = ([Inline url],
           mp_worker url (if bool_decide (table = "events"%string)
                          then Some "events"%string else None)
           ≫= finish cameos version table cols))
  /\ (is_str st = false -> table <> "events"%string ->
      forall dfs,
        result_map (fun url => mp_worker url None) (completion (items dl))
        = Ok dfs ->
        Search' version spec table coverage
        = (PoolOpen :: (Pooled <$> completion (items dl)) ++ [PoolClose],
           pd_concat dfs
           ≫= fun results =>
                finish cameos version table cols (reset_index results))
        /\ forall results,
             pd_concat dfs = Ok results ->
             df_len (reset_index results) = sum_list_with df_len dfs
             /\ index (reset_index results)
                = seqZ 0 (Z.of_nat (sum_list_with df_len dfs)))
  /\ (is_str st = true
      <-> (exists e, dateRanger parse spec = Ok (ArrDt e))
          /\ coverage && negb (version =? 1) = false).
Proof.
  pose proof (Search_after_plan parse now dateInputCheck urlBuilder mp_worker
                cameos events1Heads events2Heads mentionsHeads gkgHeads
                completion mp_worker_seq iter_url table_is_literal
                stale_download_list version spec table coverage st cols (Some dl)
                Hcheck Hres Hplan) as HS.
  destruct (plan_download_list parse now urlBuilder events1Heads events2Heads
              mentionsHeads gkgHeads table_is_literal version spec table coverage st cols dl
              Hres Hplan) as [t Hdl].
  split_and!; [| | exact (resolve_is_str parse now spec version coverage st Hres)].
  - intros Hstr. destruct st as [s | l | l]; try discriminate.
    exists (urlBuilder s version t). split; [exact Hdl |].
    rewrite HS, Hdl. cbn [urls]. rewrite download_inline. reflexivity.
  - intros Hstr Htable dfs Hdfs. split.
    + assert (is_str dl = false) as Hseq
        by (rewrite Hdl; destruct st; [discriminate | reflexivity..]).
      rewrite HS, (download_pool _ _ _ _ _ _ _ _ dfs Hstr Htable Hseq Hdfs).
      cbn [fst snd]. by destruct (pd_concat dfs).
    + intros results Hres'.
      rewrite <- (pd_concat_len dfs results Hres'). split; reflexivity.
Qed.


(** C9 (amended). When the fetches of a query succeed and the table they
    give has no rows, [Search] raises: the no-data [ValueError] when the
    header list fits the width of that table, the length-mismatch error of
    the column assignment when it does not, and, for version 1 'gkg', the
    lookup error for the missing header row 0.  No query returns a table
    without rows. *)
Theorem empty_table_is_never_returned
  (version : Z) (spec : DateSpec) (table : string) (coverage : bool)
  (st : stamps) (cols : option (list value)) (dl : option stamps)
  (results : DataFrame)
  (Hcheck : dateInputCheck spec version = Ok tt)
  (Hres : resolve parse now spec version coverage = Ok st)
  (Hplan : plan' version spec table coverage = Ok (cols, dl))
  (Hfetched : (download' st table dl).2 = Ok results)
  (Hempty : df_len results = 0%nat) :
  let trace := (download' st table dl).1 in
  (exists e, Search' version spec table coverage = (trace, Raise e))
  /\ (forall c, ~ (table = "gkg"%string /\ version = 1) -> cols = Some c ->
        length c = length (columns results) ->
        Search' version spec table coverage = (trace, Raise no_data))
  /\ (forall c, ~ (table = "gkg"%string /\ version = 1) -> cols = Some c ->
        length c <> length (columns results) ->
        Search' version spec table coverage
        = (trace, Raise (ValueError "Length mismatch")))
  /\ (table = "gkg"%string -> version = 1 ->
        Search' version spec table coverage = (trace, Raise (KeyError "0")))
  /\ (forall spec' table' coverage' df,
        (Search' version spec' table' coverage').2 = Ok df ->
        df_len df <> 0%nat).
Proof.
  intros trace.
  pose proof (Search_after_plan parse now dateInputCheck urlBuilder mp_worker
                cameos events1Heads events2Heads mentionsHeads gkgHeads
                completion mp_worker_seq iter_url table_is_literal
                stale_download_list version spec table coverage st cols dl
                Hcheck Hres Hplan) as HS.
  rewrite Hfetched, bind_Ok in HS. fold trace in HS.
  split_and!.
  - pose proof (finish_empty_raises cameos version table cols results Hempty)
      as Hr.
    rewrite HS. destruct (finish _ _ _ _ _) as [df | e]; [contradiction |].
    by exists e.
  - intros c Hnot -> Hc. rewrite HS.
    by rewrite (finish_empty_named _ _ _ _ _ Hempty Hnot Hc).
  - intros c Hnot -> Hc. rewrite HS.
    by rewrite (finish_empty_width _ _ _ _ _ Hnot Hc).
  - intros -> Hv. rewrite HS. by rewrite (finish_empty_gkg1 _ _ _ _ Hempty Hv).
  - intros spec' table' coverage' df. unfold Search.
    destruct (dateInputCheck spec' version) as [[] |]; [| discriminate].
    rewrite M_bind_lift_Ok.
    destruct (resolve parse now spec' version coverage') as [st' |];
      [| discriminate].
    rewrite M_bind_lift_Ok.
    destruct (plan' version spec' table' coverage') as [[cols' dl'] |];
      [| discriminate].
    rewrite M_bind_lift_Ok.
    destruct (download' st' table' dl') as [tr [r | e]];
      [| discriminate].
    cbn [mbind M_bind lift snd].
    destruct (finish cameos version table' cols' r) as [df' |] eqn:Hfin;
      [| discriminate].
    intros [= <-]. by apply (finish_nonempty _ _ _ _ _ _ Hfin).
Qed.

End PipelineClaims.

(** C5 (the claim fails here). The range [["2016-10-19", "2016-10-19"]]
    under version 2, table 'gkg', resolves to a download list of exactly
    one URL, held in a list: [Search] opens a pool for it. *)
Lemma one_file_query_goes_through_the_pool :
  plan parse_model sample_now sample_urlBuilder sample_heads sample_heads
    sample_heads sample_heads true 2
    (DList ["2016-10-19"%string; "2016-10-19"%string]) "gkg" false
  = Ok (Some sample_heads,
        Some (Lst ["http://data.gdeltproject.org/gdeltv2/20161019234500.gkg.zip"%string]))
  /\ (sample_Search sample_worker 2
        (DList ["2016-10-19"%string; "2016-10-19"%string]) "gkg" false).1
     = [PoolOpen;
        Pooled "http://data.gdeltproject.org/gdeltv2/20161019234500.gkg.zip";
        PoolClose].
Proof. split; vm_compute; reflexivity. Qed.

(** C5 at the range 2016-10-19 to 2016-10-20, table 'gkg', version 2: two
    pooled fetches. *)
Lemma fetch_inline_for_a_string_pooled_for_a_sequence_witness :
  (sample_Search sample_worker 2
     (DList ["2016-10-19"%string; "2016-10-20"%string]) "gkg" false).1
  = [PoolOpen;
     Pooled "http://data.gdeltproject.org/gdeltv2/20161019234500.gkg.zip";
     Pooled "http://data.gdeltproject.org/gdeltv2/20161020234500.gkg.zip";
     PoolClose].
Proof.
  destruct (fetch_inline_for_a_string_pooled_for_a_sequence
              parse_model sample_now sample_check sample_urlBuilder
              sample_worker sample_cameos sample_heads sample_heads
              sample_heads sample_heads (fun l => l)
              sample_worker_seq sample_iter_url true None 2
              (DList ["2016-10-19"%string; "2016-10-20"%string]) "gkg" false
              (Lst ["20161019234500"%string; "20161020234500"%string])
              (Some sample_heads)
              (Lst ["http://data.gdeltproject.org/gdeltv2/20161019234500.gkg.zip"%string;
                    "http://data.gdeltproject.org/gdeltv2/20161020234500.gkg.zip"%string])
              eq_refl ltac:(vm_compute; reflexivity)
              ltac:(vm_compute; reflexivity))
    as (_ & Hpool & _).
  destruct (Hpool eq_refl ltac:(discriminate) _ eq_refl) as [HS _].
  unfold sample_Search. rewrite HS. reflexivity.
Defined.



(** The two rejections of the version 1 dispatch, at the date spec
    [["2016-10-19"]]: the first for the string object of the literal, the
    second for an equal string that is another object. *)
Example v1_mentions_rejections :
  Search parse_model sample_now sample_check sample_urlBuilder sample_worker
    sample_cameos sample_heads sample_heads sample_heads sample_heads
    (fun l => l) sample_worker_seq sample_iter_url true None 1
    (DList ["2016-10-19"%string]) "mentions" false
  = ([], Raise (BaseException "GDELT 1.0 does not have the mentions table. Specify the events or gkg table."))
  /\ Search parse_model sample_now sample_check sample_urlBuilder sample_worker
       sample_cameos sample_heads sample_heads sample_heads sample_heads
       (fun l => l) sample_worker_seq sample_iter_url false None 1
       (DList ["2016-10-19"%string]) "mentions" false
     = ([], Raise (Exception "You entered an incorrect table type for GDELT 1.0.")).
Proof. split; vm_compute; reflexivity. Qed.

(** C9 (the claim fails here). Every fetch succeeds and the table has no
    rows, yet the exception is not the no-data error: under version 1 'gkg'
    it is the lookup of header row 0, and under version 2 'gkg' with a frame
    of no columns it is the length mismatch of the column assignment. *)
Lemma empty_table_can_raise_other_errors :
  sample_Search empty_worker 1 (DList ["2016-10-19"%string]) "gkg" false
  = ([Inline "http://data.gdeltproject.org/events/20161019.gkg.zip"],
     Raise (KeyError "0"))
  /\ sample_Search blank_worker 2 (DList ["2016-10-19"%string]) "gkg" false
     = ([Inline "http://data.gdeltproject.org/gdeltv2/20161019003000.gkg.zip"],
        Raise (ValueError "Length mismatch")).
Proof. split; vm_compute; reflexivity. Qed.

(** C9 at the date spec [["2016-10-19"]], table 'gkg', version 2, with a
    worker whose file has thirty columns and no rows. *)
Lemma empty_table_is_never_returned_witness :
  sample_Search empty_worker 2 (DList ["2016-10-19"%string]) "gkg" false
  = ([Inline "http://data.gdeltproject.org/gdeltv2/20161019003000.gkg.zip"],
     Raise no_data).
Proof.
  refine (proj1 (proj2 (empty_table_is_never_returned
                   parse_model sample_now sample_check sample_urlBuilder
                   empty_worker sample_cameos sample_heads sample_heads
                   sample_heads sample_heads (fun l => l)
              sample_worker_seq sample_iter_url true None 2
                   (DList ["2016-10-19"%string]) "gkg" false
                   (One "20161019003000") (Some sample_heads)
                   (Some (One "http://data.gdeltproject.org/gdeltv2/20161019003000.gkg.zip"))
                   (mkdf (VInt <$> seqZ 0 30) [] [])
                   eq_refl _ _ eq_refl eq_refl)) sample_heads _ eq_refl eq_refl).
  - vm_compute. reflexivity.
  - vm_compute. reflexivity.
  - intros [_ H]. discriminate H.
Defined.

(** ** The documented scenario, run on the sample environment *)

(** [Search(["2016-10-19"], table='events')] under version 2: one inline
    fetch, of the file stamped with the clock's quarter, and a result whose
    column 27 is [CAMEOCodeDescription]. *)
Example search_single_day_events :
  exists df,
    sample_Search sample_worker 2 (DList ["2016-10-19"%string]) "events" false
    = ([Inline "http://data.gdeltproject.org/gdeltv2/20161019003000.events.zip"],
       Ok df)
    /\ columns df !! 27%nat = Some (VStr "CAMEOCodeDescription")
    /\ length (columns df) = 31%nat.
Proof. eexists. split_and!; vm_compute; reflexivity. Qed.

(** The example of the class docstring,
    [Search(['2016 10 19'], table='events', coverage=True)], stops at the
    stray name [p] of the pool branch before any fetch. *)
Example search_events_coverage_stops_at_stray_name :
  sample_Search sample_worker 2 (DList ["2016 10 19"%string]) "events" true
  = ([], Raise (NameError "p")).
Proof. vm_compute. reflexivity. Qed.

(** * Further properties of the code *)

(** ** Calendar order *)

Lemma toordinal_year_mono a b :
  valid_date a -> valid_date b -> toordinal a <= toordinal b ->
  year a <= year b.
Proof.
  intros Ha Hb Hab.
  pose proof (day_of_year_bounds a Ha) as Ba.
  pose proof (day_of_year_bounds b Hb) as Bb.
  destruct (Z_le_gt_dec (year a) (year b)) as [Hle | Hgt]; [exact Hle |].
  pose proof (days_before_year_mono (year b + 1) (year a) ltac:(lia)). lia.
Qed.

Lemma toordinal_month_mono y m dd m' dd' :
  valid_date (mkdate y m dd) -> valid_date (mkdate y m' dd') ->
  toordinal (mkdate y m dd) <= toordinal (mkdate y m' dd') ->
  m <= m'.
Proof.
  unfold valid_date, toordinal, days_before_month, days_in_month. simpl.
  intros [Hm Hd] [Hm' Hd']. revert Hd Hd'.
  destruct (is_leap y); month_cases m; month_cases m';
    cbv [Z.eqb Z.ltb Z.compare Pos.compare Pos.compare_cont Pos.eqb
         andb orb]; lia.
Qed.

(** The days between two days of one year are days of that year, and the
    days between two days of one month are days of that month. *)
Lemma between_same_year a b d :
  valid_date a -> valid_date b -> valid_date d ->
  toordinal a <= toordinal d <= toordinal b ->
  year a = year b -> year d = year a.
Proof.
  intros Ha Hb Hd [H1 H2] Hy.
  pose proof (toordinal_year_mono a d Ha Hd H1).
  pose proof (toordinal_year_mono d b Hd Hb H2). lia.
Qed.

Lemma between_same_month a b d :
  valid_date a -> valid_date b -> valid_date d ->
  toordinal a <= toordinal d <= toordinal b ->
  year a = year b -> month a = month b ->
  year d = year a /\ month d = month a.
Proof.
  intros Ha Hb Hd Hr Hy Hm.
  pose proof (between_same_year a b d Ha Hb Hd Hr Hy) as Hyd.
  split; [exact Hyd |].
  destruct a as [y m dd], b as [y' m' dd'], d as [y'' m'' dd''].
  simpl in *. subst y' m' y''. destruct Hr as [H1 H2].
  pose proof (toordinal_month_mono y m dd m'' dd'' Ha Hd H1).
  pose proof (toordinal_month_mono y m'' dd'' m dd' Hd Hb H2). lia.
Qed.

(** The days [np.arange] and the appended end day give for a range inside
    the years 1000 to 9999 are days of those years. *)
Lemma range_days_ok a b n :
  date_ok a -> date_ok b ->
  datetime64_D a <= n <= datetime64_D b ->
  date_ok (date_of_days n).
Proof.
  intros [Ha Hya] [Hb Hyb] Hn.
  destruct (date_of_days_spec n) as [Hv Ho].
  revert Hv Ho. generalize (date_of_days n). intros d Hv Ho.
  split; [exact Hv |].
  assert (toordinal a <= toordinal d <= toordinal b) as [H1 H2]
    by (unfold datetime64_D in *; lia).
  pose proof (toordinal_year_mono a d Ha Hv H1).
  pose proof (toordinal_year_mono d b Hv Hb H2). lia.
Qed.

(** ** More on the resolver *)

Lemma result_map_parsed parse (l : list string) (dts : list datetime) :
  Forall2 (fun s dt => parse s = Some dt) l dts ->
  result_map (parse_raising parse) l = Ok dts.
Proof.
  induction 1 as [| s dt l dts Hs _ IH]; [reflexivity |].
  cbn [result_map].
  assert (parse_raising parse s = Ok dt) as ->
    by (unfold parse_raising; by rewrite Hs).
  by rewrite bind_Ok, IH.
Qed.

Lemma floor15_seconds now :
  time_ok now ->
  seconds_of (floor15 now) <= seconds_of now < seconds_of (floor15 now) + 900.
Proof.
  intros (Hh & Hm & Hs). unfold seconds_of, floor15, replace_minute. simpl.
  generalize (toordinal (dt_date now)). intros o. div_lia.
Qed.

Lemma day_stamps_concat_length (ds : list date) :
  length (concat (day_stamps <$> ds)) = (96 * length ds)%nat.
Proof.
  induction ds as [| d ds IH]; [reflexivity |].
  rewrite fmap_cons. cbn [concat]. rewrite length_app, IH.
  change (length (day_stamps d)) with 96%nat. simpl length. lia.
Qed.

Lemma list_to_set_constant (l : list string) (x : string) :
  l <> [] -> (forall y, y ∈ l -> y = x) ->
  list_to_set l = ({[x]} : gset string).
Proof.
  intros Hne Hall. apply set_eq. intros y.
  rewrite elem_of_list_to_set, elem_of_singleton. split; [by apply Hall |].
  intros ->. destruct l as [| z l]; [contradiction |].
  rewrite <- (Hall z) by left. left.
Qed.

Section RangeFacts.

Variable parse : string -> option datetime.
Hypothesis Hparse : parse_spec parse.
Variable now : datetime.

(** The days of a range, as [dateRanger] lists them. *)
Lemma dateRanger_range a b da db :
  parse a = Some da -> parse b = Some db ->
  date_ok (dt_date da) -> date_ok (dt_date db) ->
  toordinal (dt_date da) <= toordinal (dt_date db) ->
  dateRanger parse (DList [a; b])
  = Ok (ArrList
          (midnight <$>
             (date_of_days <$>
                seqZ (datetime64_D (dt_date da))
                  (days_between (dt_date da) (dt_date db) + 1))))
  /\ Forall date_ok
       (date_of_days <$>
          seqZ (datetime64_D (dt_date da))
            (days_between (dt_date da) (dt_date db) + 1)).
Proof.
  intros Ha Hb Hda Hdb Hab. split.
  - rewrite (dateRanger_pair parse Hparse a b da db Ha Hb Hda Hdb).
    rewrite days_range_snoc by (try apply Hdb; exact Hab).
    by rewrite <- list_fmap_compose.
  - apply Forall_fmap, Forall_forall. intros n Hn.
    apply elem_of_seqZ in Hn.
    apply (range_days_ok (dt_date da) (dt_date db)); [done | done |].
    unfold days_between, datetime64_D in *. lia.
Qed.

(** Version 1 on a range all of whose days have one identifier. *)
Lemma v1_range_collapse a b da db c x :
  parse a = Some da -> parse b = Some db ->
  date_ok (dt_date da) -> date_ok (dt_date db) ->
  toordinal (dt_date da) <= toordinal (dt_date db) ->
  (forall d, valid_date d ->
     toordinal (dt_date da) <= toordinal d <= toordinal (dt_date db) ->
     era_id (mkdt d 23 45 0) = x) ->
  resolve parse now (DList [a; b]) 1 c = Ok (Lst [x]).
Proof.
  intros Ha Hb Hda Hdb Hab Hall.
  destruct (dateRanger_range a b da db Ha Hb Hda Hdb Hab) as [Hr Hok].
  unfold resolve. rewrite Hr, bind_Ok.
  rewrite gdeltRangeString_list_plain by apply andb_false_r.
  unfold v1_datestrings. change (1 =? 1) with true. cbv iota.
  rewrite <- list_fmap_compose.
  rewrite (result_map_fmap_ok _ _ (fun d => era_id (mkdt d 23 45 0))).
  - rewrite bind_Ok. do 2 f_equal.
    rewrite (list_to_set_constant _ x).
    + apply elements_singleton.
    + rewrite seqZ_cons by (unfold days_between; lia). discriminate.
    + intros y Hy. apply list_elem_of_fmap in Hy as (d & -> & Hd).
      apply list_elem_of_fmap in Hd as (n & -> & Hn).
      apply elem_of_seqZ in Hn.
      destruct (date_of_days_spec n) as [Hv Ho].
      revert Hv Ho. generalize (date_of_days n). intros d Hv Ho.
      apply Hall; [exact Hv |].
      unfold days_between, datetime64_D in *. lia.
  - intros d Hd. rewrite Forall_forall in Hok.
    apply v1_truncate_stamp; [exact Hparse |].
    split; [by apply Hok | unfold time_ok; simpl; lia].
Qed.

End RangeFacts.

(** ** The date normalizer and the resolver *)

(** X1. A list of three or more date strings is taken as it stands: each
    entry is parsed on its own, and under version 2 without coverage the
    resolver answers one end-of-day stamp per entry, in the order given.
    Days between the entries are not filled in and a repeated day is
    repeated in the answer. *)
Theorem long_list_is_resolved_entry_by_entry
  (parse : string -> option datetime) (now : datetime)
  (l : list string) (dts : list datetime)
  (Hlen : (2 < length l)%nat)
  (Hparsed : Forall2 (fun s dt => parse s = Some dt) l dts) :
  dateRanger parse (DList l) = Ok (ArrList dts)
  /\ resolve parse now (DList l) 2 false
     = Ok (Lst ((fun dt => strftime (mkdt (dt_date dt) 23 45 0)) <$> dts))
  /\ length ((fun dt => strftime (mkdt (dt_date dt) 23 45 0)) <$> dts)
     = length l.
Proof.
  assert (dateRanger parse (DList l) = Ok (ArrList dts)) as Hr.
  { unfold dateRanger.
    rewrite bool_decide_eq_false_2 by lia.
    rewrite bool_decide_eq_true_2 by exact Hlen.
    by rewrite (result_map_parsed parse l dts Hparsed). }
  split_and!.
  - exact Hr.
  - unfold resolve. rewrite Hr, bind_Ok.
    by rewrite gdeltRangeString_list_plain.
  - rewrite length_fmap. symmetry. by eapply Forall2_length.
Qed.

(** X1 at a list with a gap and a repeated day. *)
Lemma long_list_is_resolved_entry_by_entry_witness :
  resolve parse_model sample_now
    (DList ["2016-10-19"; "2016-10-25"; "2016-10-19"]%string) 2 false
  = Ok (Lst ["20161019234500"; "20161025234500"; "20161019234500"]%string).
Proof.
  refine (proj1 (proj2 (long_list_is_resolved_entry_by_entry parse_model
            sample_now ["2016-10-19"; "2016-10-25"; "2016-10-19"]%string
            [midnight (mkdate 2016 10 19); midnight (mkdate 2016 10 25);
             midnight (mkdate 2016 10 19)] _ _))).
  - simpl. lia.
  - repeat constructor.
Defined.

(** X2. A two-element date spec whose second day is not after its first
    normalizes to the second day alone: the range between them is empty
    and only the appended end day is left.  A reversed range is not an
    error and the first day is dropped. *)
Theorem reversed_pair_keeps_only_its_second_day
  (parse : string -> option datetime) (a b : string) (da db : datetime)
  (Hparse : parse_spec parse)
  (Ha : parse a = Some da) (Hb : parse b = Some db)
  (Hda : date_ok (dt_date da)) (Hdb : date_ok (dt_date db))
  (Hrev : toordinal (dt_date db) <= toordinal (dt_date da)) :
  dateRanger parse (DList [a; b]) = Ok (ArrList [midnight (dt_date db)]).
Proof.
  rewrite (dateRanger_pair parse Hparse a b da db Ha Hb Hda Hdb).
  rewrite seqZ_nil by (unfold datetime64_D; lia). reflexivity.
Qed.

(** X2 at the reversed range 2016-10-21, 2016-10-19. *)
Lemma reversed_pair_keeps_only_its_second_day_witness :
  dateRanger parse_model (DList ["2016-10-21"; "2016-10-19"]%string)
  = Ok (ArrList [midnight (mkdate 2016 10 19)]).
Proof.
  refine (reversed_pair_keeps_only_its_second_day parse_model
            "2016-10-21" "2016-10-19" (midnight (mkdate 2016 10 21))
            (midnight (mkdate 2016 10 19)) parse_model_spec eq_refl eq_refl
            _ _ _).
  - vm_compute. intuition discriminate.
  - vm_compute. intuition discriminate.
  - vm_compute. discriminate.
Defined.

(** X3. A non-empty date string that the parser reads is normalized, and
    resolved, exactly as the one-element list holding it, for every version
    and coverage flag. *)
Theorem string_resolves_as_its_one_element_list
  (parse : string -> option datetime) (now : datetime) (s : string)
  (dt : datetime) (version : Z) (coverage : bool)
  (Hs : parse s = Some dt) (Hne : s <> ""%string) :
  dateRanger parse (DStr s) = Ok (ArrDt dt)
  /\ dateRanger parse (DList [s]) = Ok (ArrDt dt)
  /\ resolve parse now (DStr s) version coverage
     = resolve parse now (DList [s]) version coverage.
Proof.
  assert (dateRanger parse (DStr s) = Ok (ArrDt dt)) as H1.
  { unfold dateRanger, parse_date. rewrite Hs.
    destruct s; [contradiction | reflexivity]. }
  assert (dateRanger parse (DList [s]) = Ok (ArrDt dt)) as H2.
  { unfold dateRanger.
    change (bool_decide (length [s] = 1%nat)) with true. cbv iota.
    change (String.concat "" [s]) with s.
    unfold parse_raising. by rewrite Hs. }
  split_and!; [exact H1 | exact H2 |].
  unfold resolve. by rewrite H1, H2.
Qed.

(** X3 at the string ["2016-10-19"]. *)
Lemma string_resolves_as_its_one_element_list_witness :
  resolve parse_model sample_now (DStr "2016-10-19") 2 true
  = resolve parse_model sample_now (DList ["2016-10-19"%string]) 2 true.
Proof.
  refine (proj2 (proj2 (string_resolves_as_its_one_element_list parse_model
            sample_now "2016-10-19" (midnight (mkdate 2016 10 19)) 2 true
            eq_refl _))).
  discriminate.
Defined.

(** X4. A single string that is empty, or that the parser rejects, is not
    reported as a date error: the fallback value of the normalizer reaches
    the resolver, which raises an [AttributeError] for the [str] it was
    handed; the same rejected string inside a one-element list raises the
    parser's [ValueError]. *)
Theorem bad_string_surfaces_as_attribute_error
  (parse : string -> option datetime) (now : datetime) (s : string)
  (version : Z) (coverage : bool)
  (Hbad : parse s = None) :
  resolve parse now (DStr "") version coverage
    = Raise (AttributeError "'str' object has no attribute 'date'")
  /\ resolve parse now (DStr s) version coverage
     = Raise (AttributeError "'str' object has no attribute 'date'")
  /\ resolve parse now (DList [s]) version coverage
     = Raise (ValueError "Unknown string format").
Proof.
  split_and!.
  - reflexivity.
  - unfold resolve, dateRanger, parse_date. rewrite Hbad.
    destruct (bool_decide _); reflexivity.
  - unfold resolve, dateRanger.
    change (bool_decide (length [s] = 1%nat)) with true. cbv iota.
    change (String.concat "" [s]) with s.
    unfold parse_raising. by rewrite Hbad.
Qed.

(** X4 at the string ["not a date"]. *)
Lemma bad_string_surfaces_as_attribute_error_witness :
  resolve parse_model sample_now (DStr "not a date") 2 false
  = Raise (AttributeError "'str' object has no attribute 'date'").
Proof.
  exact (proj1 (proj2 (bad_string_surfaces_as_attribute_error parse_model
           sample_now "not a date" 2 false eq_refl))).
Defined.

(** X5. Without coverage, under a version other than 1, a single day that
    is the current day resolves to the clock floored to the quarter-hour:
    same day and hour, minute a multiple of 15, second 0, at most the
    current instant and less than 15 minutes before it. *)
Theorem current_day_resolves_to_floored_clock
  (parse : string -> option datetime) (now e : datetime) (version : Z)
  (Htoday : dt_date e = dt_date now) (Hversion : version <> 1)
  (Hnow : time_ok now) :
  gdeltRangeString parse now (ArrDt e) false version
    = Ok (One (strftime (floor15 now)))
  /\ dt_date (floor15 now) = dt_date now
  /\ hour (floor15 now) = hour now
  /\ minute (floor15 now) mod 15 = 0
  /\ 0 <= minute (floor15 now) < 60
  /\ second (floor15 now) = 0
  /\ seconds_of (floor15 now) <= seconds_of now
     < seconds_of (floor15 now) + 15 * 60.
Proof.
  split_and!.
  - rewrite gdeltRangeString_single_plain by reflexivity.
    rewrite (proj2 (date_eqb_eq _ _) Htoday).
    unfold v1_datestrings. by rewrite (proj2 (Z.eqb_neq version 1) Hversion).
  - reflexivity.
  - reflexivity.
  - unfold floor15, replace_minute. simpl. div_lia.
  - destruct Hnow as (_ & Hm & _).
    unfold floor15, replace_minute. simpl. div_lia.
  - destruct Hnow as (_ & Hm & _).
    unfold floor15, replace_minute. simpl. div_lia.
  - reflexivity.
  - pose proof (floor15_seconds now Hnow). lia.
  - pose proof (floor15_seconds now Hnow). lia.
Qed.

(** X5 at the clock reading 2016-11-03 10:37:12. *)
Lemma current_day_resolves_to_floored_clock_witness :
  gdeltRangeString parse_model sample_now
    (ArrDt (midnight (mkdate 2016 11 3))) false 2
  = Ok (One "20161103103000").
Proof.
  refine (proj1 (current_day_resolves_to_floored_clock parse_model sample_now
            (midnight (mkdate 2016 11 3)) 2 eq_refl _ _)).
  - discriminate.
  - vm_compute. intuition discriminate.
Defined.

(** X6. With coverage, under a version other than 1, a single-day spec of
    the current day resolves to the quarter-hour stamps from 00:00:00 up to
    the clock floored to the quarter-hour: [4 * hour + minute // 15 + 1] of
    them, between 1 and 96, the last being the floored clock, and none
    after the current instant. *)
Theorem current_day_with_coverage_stops_at_the_clock
  (parse : string -> option datetime) (now : datetime) (version : Z)
  (Hparse : parse_spec parse) (Hnow : dt_ok now) (Hversion : version <> 1) :
  let n := hour now * 4 + minute now / 15 + 1 in
  let l := take (Z.to_nat n) (day_stamps (dt_date now)) in
  gdeltRangeString parse now (ArrDt (midnight (dt_date now))) true version
    = Ok (Arr l)
  /\ Z.of_nat (length l) = n
  /\ 1 <= n <= 96
  /\ last l = Some (strftime (floor15 now))
  /\ (forall i s, l !! i = Some s ->
        exists k, 0 <= k < n
                  /\ s = strftime (quarter_of (dt_date now) k)
                  /\ seconds_of (quarter_of (dt_date now) k)
                     <= seconds_of now).
Proof.
  intros n l.
  destruct Hnow as [Hd Ht]. pose proof Ht as (Hh & Hm & Hs).
  assert (1 <= n <= 96) as Hn by (unfold n; div_lia).
  assert (length l = Z.to_nat n) as Hlen.
  { unfold l. rewrite length_take.
    change (length (day_stamps (dt_date now))) with 96%nat. lia. }
  assert (quarter_of (dt_date now) (n - 1) = floor15 now) as Hlast.
  { unfold quarter_of, floor15, replace_minute, n. f_equal; div_lia. }
  split_and!; try lia.
  - rewrite gdeltRangeString_today_coverage by (simpl; auto).
    rewrite times_eq, <- fmap_take.
    rewrite (result_map_fmap_ok _ _
               (fun k => strftime (quarter_of (dt_date now) k))).
    + rewrite bind_Ok. unfold l, day_stamps. rewrite fmap_take.
      do 3 f_equal. unfold n. lia.
    + intros k Hk. apply (subseteq_take _ _ k) in Hk.
      apply elem_of_seqZ in Hk.
      apply (quarter_stamp_midnight parse Hparse); [exact Hd | lia].
  - rewrite last_lookup, Hlen. unfold l.
    rewrite lookup_take_lt by lia.
    replace (Init.Nat.pred (Z.to_nat n)) with (Z.to_nat (n - 1)) by lia.
    rewrite day_stamps_lookup by lia. by rewrite Hlast.
  - intros i s Hi. unfold l in Hi.
    apply lookup_take_Some in Hi as [Hi Hlt].
    exists (Z.of_nat i). split; [lia |].
    rewrite <- (Nat2Z.id i) in Hi.
    rewrite day_stamps_lookup in Hi by lia. injection Hi as <-.
    split; [reflexivity |].
    pose proof (floor15_seconds now Ht) as [Hfl _].
    rewrite <- Hlast in Hfl.
    rewrite seconds_of_quarter in * by lia. lia.
Qed.

(** X6 at the clock reading 2016-11-03 10:37:12: 43 stamps, the last
    10:30:00. *)
Lemma current_day_with_coverage_stops_at_the_clock_witness :
  gdeltRangeString parse_model sample_now
    (ArrDt (midnight (mkdate 2016 11 3))) true 2
  = Ok (Arr (take 43 (day_stamps (mkdate 2016 11 3))))
  /\ last (take 43 (day_stamps (mkdate 2016 11 3)))
     = Some "20161103103000"%string.
Proof.
  destruct (current_day_with_coverage_stops_at_the_clock parse_model
              sample_now 2 parse_model_spec) as (H1 & _ & _ & H2 & _).
  - vm_compute. intuition discriminate.
  - discriminate.
  - split; [exact H1 | exact H2].
Defined.

(** X7. The advisory about a very large download is issued exactly when a
    list of at least ten days is expanded with coverage under a version
    other than 1, that is when the expansion holds 960 stamps or more (96
    for each day); it is never issued for a single-day spec, without
    coverage, or under version 1. *)
Theorem advisory_is_issued_from_ten_days
  (parse : string -> option datetime) (now : datetime) (version : Z)
  (ds : list date)
  (Hparse : parse_spec parse) (Hds : Forall date_ok ds) (Hne : ds <> [])
  (Hversion : version <> 1) :
  gdeltRangeString parse now (ArrList (midnight <$> ds)) true version
    = Ok (Arr (concat (day_stamps <$> ds)))
  /\ length (concat (day_stamps <$> ds)) = (96 * length ds)%nat
  /\ (gdeltRangeString_warns (ArrList (midnight <$> ds)) true version = true
      <-> (10 <= length ds)%nat)
  /\ (gdeltRangeString_warns (ArrList (midnight <$> ds)) true version = true
      <-> (960 <= length (concat (day_stamps <$> ds)))%nat)
  /\ (forall element, gdeltRangeString_warns element false version = false)
  /\ (forall element coverage,
        gdeltRangeString_warns element coverage 1 = false)
  /\ (forall e coverage,
        gdeltRangeString_warns (ArrDt e) coverage version = false).
Proof.
  assert (gdeltRangeString_warns (ArrList (midnight <$> ds)) true version
          = true <-> (10 <= length ds)%nat) as Hw.
  { unfold gdeltRangeString_warns.
    rewrite (proj2 (Z.eqb_neq version 1) Hversion). cbn [andb negb].
    rewrite bool_decide_eq_true, length_fmap. lia. }
  split_and!.
  - rewrite gdeltRangeString_list_coverage by exact Hversion.
    rewrite (expand_days parse Hparse) by exact Hds. rewrite bind_Ok.
    destruct ds as [| d0 ds']; [contradiction |]. reflexivity.
  - apply day_stamps_concat_length.
  - exact Hw.
  - rewrite Hw, day_stamps_concat_length. lia.
  - intros [s | e | l]; reflexivity.
  - intros [s | e | l] c; try reflexivity.
    unfold gdeltRangeString_warns. change (1 =? 1) with true.
    by rewrite andb_false_r.
  - reflexivity.
Qed.

(** X7 at a list of ten days. *)
Lemma advisory_is_issued_from_ten_days_witness :
  gdeltRangeString_warns
    (ArrList (midnight <$> ((fun d => mkdate 2016 10 d) <$> seqZ 1 10)))
    true 2
  = true.
Proof.
  refine (proj2 (proj1 (proj2 (proj2 (advisory_is_issued_from_ten_days
            parse_model sample_now 2
            ((fun d => mkdate 2016 10 d) <$> seqZ 1 10) parse_model_spec
            _ _ _)))) _).
  - apply Forall_fmap, Forall_forall. intros d Hd.
    apply elem_of_seqZ in Hd. unfold date_ok, valid_date. simpl.
    change (days_in_month 2016 10) with 31. lia.
  - intros H. apply (f_equal length) in H. discriminate H.
  - discriminate.
  - vm_compute. lia.
Defined.

(** X8. Version 1: a range of days inside one calendar month, from
    2006-01-01 on and before 2013-04-01, resolves to exactly one
    identifier, the six digits [YYYYMM] of that month, whatever the
    coverage flag. *)
Theorem v1_range_inside_a_month_is_one_monthly_file
  (parse : string -> option datetime) (now : datetime) (coverage : bool)
  (a b : string) (da db : datetime)
  (Hparse : parse_spec parse)
  (Ha : parse a = Some da) (Hb : parse b = Some db)
  (Hda : date_ok (dt_date da)) (Hdb : date_ok (dt_date db))
  (Hchrono : toordinal (dt_date da) <= toordinal (dt_date db))
  (Hyear : year (dt_date da) = year (dt_date db))
  (Hmonth : month (dt_date da) = month (dt_date db))
  (Hfrom : date_leb (mkdate 2006 1 1) (dt_date da) = true)
  (Hbefore : date_leb (mkdate 2013 4 1) (dt_date db) = false) :
  resolve parse now (DList [a; b]) 1 coverage
  = Ok (Lst [zpad4 (year (dt_date da)) +:+ zpad2 (month (dt_date da))]).
Proof.
  apply (v1_range_collapse parse Hparse now a b da db); try assumption.
  intros d Hd Hr.
  destruct (between_same_month (dt_date da) (dt_date db) d) as [<- <-];
    try assumption; try apply Hda; try apply Hdb.
  unfold date_leb in *. apply Z.leb_le in Hfrom. apply Z.leb_gt in Hbefore.
  unfold era_id, era_width, date_leb. cbn [dt_date].
  rewrite (proj2 (Z.leb_gt _ _)) by lia.
  rewrite (proj2 (Z.leb_le _ _)) by lia.
  reflexivity.
Qed.

(** X8 at the range 2010-10-19 to 2010-10-25. *)
Lemma v1_range_inside_a_month_is_one_monthly_file_witness :
  resolve parse_model sample_now
    (DList ["2010-10-19"; "2010-10-25"]%string) 1 false
  = Ok (Lst ["201010"%string]).
Proof.
  refine (v1_range_inside_a_month_is_one_monthly_file parse_model sample_now
            false "2010-10-19" "2010-10-25" (midnight (mkdate 2010 10 19))
            (midnight (mkdate 2010 10 25)) parse_model_spec eq_refl eq_refl
            _ _ _ eq_refl eq_refl eq_refl eq_refl).
  - vm_compute. intuition discriminate.
  - vm_compute. intuition discriminate.
  - vm_compute. discriminate.
Defined.

(** X9. Version 1: a range of days inside one calendar year before 2006
    resolves to exactly one identifier, the four digits [YYYY] of that
    year, whatever the coverage flag. *)
Theorem v1_range_inside_a_year_is_one_yearly_file
  (parse : string -> option datetime) (now : datetime) (coverage : bool)
  (a b : string) (da db : datetime)
  (Hparse : parse_spec parse)
  (Ha : parse a = Some da) (Hb : parse b = Some db)
  (Hda : date_ok (dt_date da)) (Hdb : date_ok (dt_date db))
  (Hchrono : toordinal (dt_date da) <= toordinal (dt_date db))
  (Hyear : year (dt_date da) = year (dt_date db))
  (Hbefore : date_leb (mkdate 2006 1 1) (dt_date db) = false) :
  resolve parse now (DList [a; b]) 1 coverage
  = Ok (Lst [zpad4 (year (dt_date da))]).
Proof.
  apply (v1_range_collapse parse Hparse now a b da db); try assumption.
  intros d Hd Hr.
  rewrite <- (between_same_year (dt_date da) (dt_date db) d);
    try assumption; try apply Hda; try apply Hdb.
  unfold date_leb in *. apply Z.leb_gt in Hbefore.
  unfold era_id, era_width, date_leb. cbn [dt_date].
  change (toordinal (mkdate 2013 4 1)) with 734959 in *.
  change (toordinal (mkdate 2006 1 1)) with 732312 in *.
  rewrite (proj2 (Z.leb_gt 734959 _)) by lia.
  rewrite (proj2 (Z.leb_gt 732312 _)) by lia.
  reflexivity.
Qed.

(** X9 at the range 1999-03-01 to 1999-11-30. *)
Lemma v1_range_inside_a_year_is_one_yearly_file_witness :
  resolve parse_model sample_now
    (DList ["1999-03-01"; "1999-11-30"]%string) 1 true
  = Ok (Lst ["1999"%string]).
Proof.
  refine (v1_range_inside_a_year_is_one_yearly_file parse_model sample_now
            true "1999-03-01" "1999-11-30" (midnight (mkdate 1999 3 1))
            (midnight (mkdate 1999 11 30)) parse_model_spec eq_refl eq_refl
            _ _ _ eq_refl eq_refl).
  - vm_compute. intuition discriminate.
  - vm_compute. intuition discriminate.
  - vm_compute. discriminate.
Defined.

(** ** The download pipeline *)

Section MorePipeline.

Variable parse : string -> option datetime.
Variable now : datetime.
Variable dateInputCheck : DateSpec -> Z -> result unit.
Variable urlBuilder : string -> Z -> string -> string.
Variable mp_worker : string -> option string -> result DataFrame.
Variable cameos : value -> value.
Variables events1Heads events2Heads mentionsHeads gkgHeads : list value.
Variable completion : list string -> list string.
Variable mp_worker_seq : stamps -> option string -> result DataFrame.
Variable iter_url : string -> result (list string).
Variable table_is_literal : bool.
Variable stale_download_list : option stamps.

Local Abbreviation Search' :=
  (Search parse now dateInputCheck urlBuilder mp_worker cameos events1Heads
     events2Heads mentionsHeads gkgHeads completion mp_worker_seq iter_url
     table_is_literal stale_download_list).
Local Abbreviation download' :=
  (download mp_worker completion mp_worker_seq iter_url stale_download_list).
Local Abbreviation plan' :=
  (plan parse now urlBuilder events1Heads events2Heads mentionsHeads gkgHeads
     table_is_literal).

(** The dispatch of version 2 on a table it knows. *)
Lemma plan_v2_known_table spec table coverage st :
  table ∈ ["events"; ""; "gkg"; "mentions"]%string ->
  resolve parse now spec 2 coverage = Ok st ->
  exists cols t, plan' 2 spec table coverage
                 = Ok (Some cols, Some (urls urlBuilder st 2 t)).
Proof.
  intros Htable Hres. unfold plan.
  repeat (apply elem_of_cons in Htable as [-> | Htable]);
    [| | | | by apply elem_of_nil in Htable].
  all: repeat case_bool_decide; try discriminate; try congruence.
  all: cbn [orb]; rewrite ?Hres, ?bind_Ok.
  all: eexists _, _; reflexivity.
Qed.

Lemma items_urls st v t :
  length (items (urls urlBuilder st v t)) = length (items st).
Proof. destruct st; simpl; by rewrite ?length_fmap. Qed.

(** X10. Version 2, a range [[a, b]] in chronological order, any of the
    tables: the download list [Search] builds holds 96 URLs for each day of
    the range with coverage, [96 * ((b - a).days + 1)] in all, and one URL
    for each day without coverage, [(b - a).days + 1] in all. *)
Theorem range_download_list_size
  (a b : string) (da db : datetime) (table : string)
  (Hparse : parse_spec parse)
  (Ha : parse a = Some da) (Hb : parse b = Some db)
  (Hda : date_ok (dt_date da)) (Hdb : date_ok (dt_date db))
  (Hchrono : toordinal (dt_date da) <= toordinal (dt_date db))
  (Htable : table ∈ ["events"; ""; "gkg"; "mentions"]%string) :
  (exists cols dl,
     plan' 2 (DList [a; b]) table true = Ok (Some cols, Some dl)
     /\ Z.of_nat (length (items dl))
        = 96 * (days_between (dt_date da) (dt_date db) + 1))
  /\ (exists cols dl,
        plan' 2 (DList [a; b]) table false = Ok (Some cols, Some dl)
        /\ Z.of_nat (length (items dl))
           = days_between (dt_date da) (dt_date db) + 1).
Proof.
  destruct (dateRanger_range parse Hparse a b da db Ha Hb Hda Hdb Hchrono)
    as [Hr Hok].
  assert (0 <= days_between (dt_date da) (dt_date db)) as Hn
    by (unfold days_between; lia).
  set (days := date_of_days <$> seqZ (datetime64_D (dt_date da))
                 (days_between (dt_date da) (dt_date db) + 1)) in *.
  assert (Z.of_nat (length days)
          = days_between (dt_date da) (dt_date db) + 1) as Hlen.
  { unfold days. rewrite length_fmap, length_seqZ. lia. }
  assert (days <> []) as Hne.
  { intros Hnil. rewrite Hnil in Hlen. simpl in Hlen. lia. }
  split.
  - assert (resolve parse now (DList [a; b]) 2 true
            = Ok (Arr (concat (day_stamps <$> days)))) as Hres.
    { unfold resolve. rewrite Hr, bind_Ok.
      rewrite gdeltRangeString_list_coverage by lia.
      rewrite (expand_days parse Hparse) by exact Hok. rewrite bind_Ok.
      destruct days; [contradiction | reflexivity]. }
    destruct (plan_v2_known_table _ table true _ Htable Hres)
      as (cols & t & Hplan).
    exists cols, (urls urlBuilder (Arr (concat (day_stamps <$> days))) 2 t).
    split; [exact Hplan |].
    rewrite items_urls. cbn [items]. rewrite day_stamps_concat_length. lia.
  - assert (resolve parse now (DList [a; b]) 2 false
            = Ok (Lst ((fun x => strftime (end_of_day x))
                         <$> (midnight <$> days)))) as Hres.
    { unfold resolve. rewrite Hr, bind_Ok.
      by rewrite gdeltRangeString_list_plain. }
    destruct (plan_v2_known_table _ table false _ Htable Hres)
      as (cols & t & Hplan).
    eexists cols, _. split; [exact Hplan |].
    rewrite items_urls. cbn [items]. rewrite !length_fmap. exact Hlen.
Qed.

(** X12. A failed fetch ends the query with the exception of that fetch
    and no table.  For an inline fetch the trace is that one fetch.  In
    the pool every URL of the download list is handed to the pool, those
    after the failed one included, the exception of the first failed
    fetch to come back is raised, and the pool is not closed. *)
Theorem failed_fetch_fails_the_query
  (version : Z) (spec : DateSpec) (table : string) (coverage : bool)
  (st : stamps) (cols : option (list value)) (dl : stamps) (e : exn)
  (Hcheck : dateInputCheck spec version = Ok tt)
  (Hres : resolve parse now spec version coverage = Ok st)
  (Hplan : plan' version spec table coverage = Ok (cols, Some dl)) :
  (forall url,
      dl = One url -> is_str st = true ->
      mp_worker url (if bool_decide (table = "events"%string)
                     then Some "events"%string else None) = Raise e ->
      Search' version spec table coverage = ([Inline url], Raise e))
  /\ (forall done url rest dfs,
        is_str st = false -> table <> "events"%string ->
        completion (items dl) = done ++ url :: rest ->
        result_map (fun u => mp_worker u None) done = Ok dfs ->
        mp_worker url None = Raise e ->
        Search' version spec table coverage
        = (PoolOpen :: (Pooled <$> completion (items dl)), Raise e)
        /\ Forall (fun u => Pooled u ∈ (Search' version spec table coverage).1)
             rest
        /\ PoolClose ∉ (Search' version spec table coverage).1).
Proof.
  pose proof (Search_after_plan parse now dateInputCheck urlBuilder mp_worker
                cameos events1Heads events2Heads mentionsHeads gkgHeads
                completion mp_worker_seq iter_url table_is_literal
                stale_download_list version spec table coverage st cols
                (Some dl) Hcheck Hres Hplan) as HS.
  destruct (plan_download_list parse now urlBuilder events1Heads events2Heads
              mentionsHeads gkgHeads table_is_literal version spec table
              coverage st cols dl Hres Hplan) as [t Hdl].
  split.
  - intros url -> Hstr Hfail. destruct st as [s | l | l]; try discriminate.
    rewrite HS, download_inline. cbn [fst snd]. by rewrite Hfail.
  - intros done url rest dfs Hstr Htable Hsplit Hdone Hfail.
    assert (is_str dl = false) as Hseq
      by (rewrite Hdl; destruct st; [discriminate | reflexivity..]).
    assert (result_map (fun u => mp_worker u None) (completion (items dl))
            = Raise e) as Hmap.
    { rewrite Hsplit. clear Hsplit. revert dfs Hdone.
      induction done as [| x done IH]; intros dfs Hdone.
      - cbn [app result_map]. by rewrite Hfail.
      - cbn [app result_map] in *.
        destruct (mp_worker x None) as [df |]; [| discriminate].
        rewrite bind_Ok in *.
        destruct (result_map _ done) as [dfs' |] eqn:Hl; [| discriminate].
        by rewrite (IH dfs' eq_refl). }
    assert (Search' version spec table coverage
            = (PoolOpen :: (Pooled <$> completion (items dl)), Raise e))
      as HSearch.
    { rewrite HS, (download_pool_failure _ _ _ _ _ _ _ _ e Hstr Htable Hseq Hmap).
      reflexivity. }
    rewrite HSearch. cbn [fst]. split_and!; [reflexivity | |].
    + apply Forall_forall. intros u Hu. apply elem_of_cons. right.
      apply list_elem_of_fmap. exists u. split; [reflexivity |].
      rewrite Hsplit. apply elem_of_app. right. apply elem_of_cons. by right.
    + intros Hin. apply elem_of_cons in Hin as [Hin | Hin]; [discriminate |].
      apply list_elem_of_fmap in Hin as (u & Hu & _). discriminate.
Qed.


(** X14. A table kind that is none of 'events', '', 'gkg' and 'mentions',
    on a date spec that resolves, never gets a table.  Version 1 rejects
    it with the incorrect-table-type [Exception] before any fetch,
    whatever the object holds.  Version 2 has no such test and assigns
    neither columns nor download list.  On an object on which no query
    has assigned a download list, the query fails with an
    [AttributeError] for the missing attribute, without a fetch, after
    opening a pool when the timestamps are a list or an array.  On an
    object that holds the list of an earlier query, that list is what the
    download section works on, and a download that succeeds ends in the
    [NameError] of the column list that was never assigned. *)
Theorem unknown_table_kind
  (spec : DateSpec) (table : string) (coverage : bool) (st1 st2 : stamps)
  (Htable : table ∉ ["events"; ""; "gkg"; "mentions"]%string)
  (Hcheck1 : dateInputCheck spec 1 = Ok tt)
  (Hcheck2 : dateInputCheck spec 2 = Ok tt)
  (Hres1 : resolve parse now spec 1 coverage = Ok st1)
  (Hres2 : resolve parse now spec 2 coverage = Ok st2) :
  Search' 1 spec table coverage
    = ([], Raise (Exception "You entered an incorrect table type for GDELT 1.0."))
  /\ plan' 2 spec table coverage = Ok (None, None)
  /\ (stale_download_list = None ->
      Search' 2 spec table coverage
      = (if is_str st2 then [] else [PoolOpen],
         Raise (AttributeError "'gdelt' object has no attribute 'download_list'")))
  /\ (forall dl,
        stale_download_list = Some dl ->
        Search' 2 spec table coverage
        = ((download' st2 table (Some dl)).1,
           (download' st2 table (Some dl)).2
             ≫= fun _ => Raise (NameError "columns")))
  /\ is_raise (Search' 2 spec table coverage).2.
Proof.
  assert (table <> "events" /\ table <> "" /\ table <> "gkg"
          /\ table <> "mentions")%string as (He & Hn & Hg & Hm).
  { split_and!; intros ->; apply Htable; set_solver. }
  assert (plan' 2 spec table coverage = Ok (None, None)) as Hplan2.
  { unfold plan. change (bool_decide (2 = 1)) with false.
    change (bool_decide (2 = 2)) with true. cbv iota.
    rewrite (bool_decide_eq_false_2 _ He), (bool_decide_eq_false_2 _ Hn),
      (bool_decide_eq_false_2 _ Hg), (bool_decide_eq_false_2 _ Hm).
    reflexivity. }
  pose proof (Search_after_plan parse now dateInputCheck urlBuilder mp_worker
                cameos events1Heads events2Heads mentionsHeads gkgHeads
                completion mp_worker_seq iter_url table_is_literal
                stale_download_list 2 spec table coverage st2 None None
                Hcheck2 Hres2 Hplan2) as HS.
  assert (forall r, finish cameos 2 table None r = Raise (NameError "columns"))
    as Hfinish.
  { intros r. unfold finish. by rewrite (bool_decide_eq_false_2 _ Hg). }
  assert (stale_download_list = None ->
          download' st2 table None
          = (if is_str st2 then [] else [PoolOpen],
             Raise (AttributeError "'gdelt' object has no attribute 'download_list'")))
    as Hfresh.
  { intros Hs. unfold download, get_download_list.
    rewrite Hs, (bool_decide_eq_false_2 _ He).
    destruct (is_str st2); reflexivity. }
  assert (forall dl, stale_download_list = Some dl ->
            download' st2 table None = download' st2 table (Some dl))
    as Hstale.
  { intros dl Hs. unfold download, get_download_list. by rewrite Hs. }
  split_and!.
  - unfold Search.
    rewrite Hcheck1, M_bind_lift_Ok, Hres1, M_bind_lift_Ok.
    unfold plan. change (bool_decide (1 = 1)) with true. cbv iota.
    rewrite (bool_decide_eq_false_2 _ Hm). cbn [andb].
    rewrite (bool_decide_eq_false_2 _ He), (bool_decide_eq_false_2 _ Hn),
      (bool_decide_eq_false_2 _ Hg).
    reflexivity.
  - exact Hplan2.
  - intros Hs. rewrite HS, (Hfresh Hs). by destruct (is_str st2).
  - intros dl Hs. rewrite HS, (Hstale dl Hs). f_equal.
    destruct (download' st2 table (Some dl)).2 as [r |]; [| reflexivity].
    rewrite !bind_Ok. apply Hfinish.
  - rewrite HS. cbn [snd].
    destruct (download' st2 table None).2 as [r |]; [| exact I].
    rewrite bind_Ok, Hfinish. exact I.
Qed.

End MorePipeline.

(** X10 at the range 2016-10-19 to 2016-10-21, table 'gkg': 288 files with
    coverage. *)
Lemma range_download_list_size_witness :
  exists cols dl,
    plan parse_model sample_now sample_urlBuilder sample_heads sample_heads
      sample_heads sample_heads true 2
      (DList ["2016-10-19"; "2016-10-21"]%string) "gkg" true
    = Ok (Some cols, Some dl)
    /\ Z.of_nat (length (items dl)) = 288.
Proof.
  refine (proj1 (range_download_list_size parse_model sample_now
                   sample_urlBuilder sample_heads sample_heads sample_heads
                   sample_heads true "2016-10-19" "2016-10-21"
                   (midnight (mkdate 2016 10 19))
                   (midnight (mkdate 2016 10 21)) "gkg" parse_model_spec
                   eq_refl eq_refl _ _ _ _)).
  - vm_compute. intuition discriminate.
  - vm_compute. intuition discriminate.
  - vm_compute. discriminate.
  - set_solver.
Defined.

(** X12 at the range 2016-10-19 to 2016-10-21, table 'gkg', version 2,
    when the second file cannot be fetched: the third is handed to the
    pool all the same and the pool stays open. *)
Lemma failed_fetch_fails_the_query_witness :
  sample_Search failing_worker 2
    (DList ["2016-10-19"; "2016-10-21"]%string) "gkg" false
  = ([PoolOpen;
      Pooled "http://data.gdeltproject.org/gdeltv2/20161019234500.gkg.zip";
      Pooled "http://data.gdeltproject.org/gdeltv2/20161020234500.gkg.zip";
      Pooled "http://data.gdeltproject.org/gdeltv2/20161021234500.gkg.zip"],
     Raise (Exception "HTTP Error 404")).
Proof.
  refine (proj1 (proj2 (failed_fetch_fails_the_query
            parse_model sample_now sample_check sample_urlBuilder
            failing_worker sample_cameos sample_heads sample_heads
            sample_heads sample_heads (fun l => l)
            sample_worker_seq sample_iter_url true None 2
            (DList ["2016-10-19"; "2016-10-21"]%string) "gkg" false
            (Lst ["20161019234500"; "20161020234500"; "20161021234500"]%string)
            (Some sample_heads)
            (Lst ["http://data.gdeltproject.org/gdeltv2/20161019234500.gkg.zip";
                  "http://data.gdeltproject.org/gdeltv2/20161020234500.gkg.zip";
                  "http://data.gdeltproject.org/gdeltv2/20161021234500.gkg.zip"]%string)
            (Exception "HTTP Error 404") eq_refl _ _)
          ["http://data.gdeltproject.org/gdeltv2/20161019234500.gkg.zip"%string]
          "http://data.gdeltproject.org/gdeltv2/20161020234500.gkg.zip"
          ["http://data.gdeltproject.org/gdeltv2/20161021234500.gkg.zip"%string]
          [mkdf (VInt <$> seqZ 0 30) [0] [replicate 30 (VStr "010")]]
          eq_refl _ eq_refl _ _)).
  - vm_compute. reflexivity.
  - vm_compute. reflexivity.
  - discriminate.
  - vm_compute. reflexivity.
  - vm_compute. reflexivity.
Defined.


(** X14 at the table kind 'event' and a two-day range: on a fresh object,
    and on an object that holds the one-file list of an earlier query. *)
Lemma unknown_table_kind_witness :
  sample_Search sample_worker 1
    (DList ["2016-10-19"; "2016-10-20"]%string) "event" false
  = ([], Raise (Exception "You entered an incorrect table type for GDELT 1.0."))
  /\ sample_Search sample_worker 2
       (DList ["2016-10-19"; "2016-10-20"]%string) "event" false
     = ([PoolOpen],
        Raise (AttributeError "'gdelt' object has no attribute 'download_list'"))
  /\ Search parse_model sample_now sample_check sample_urlBuilder
       sample_worker sample_cameos sample_heads sample_heads sample_heads
       sample_heads (fun l => l) sample_worker_seq sample_iter_url true
       (Some (Lst ["http://data.gdeltproject.org/gdeltv2/20161001234500.gkg.zip"%string]))
       2 (DList ["2016-10-19"; "2016-10-20"]%string) "event" false
     = ([PoolOpen;
         Pooled "http://data.gdeltproject.org/gdeltv2/20161001234500.gkg.zip";
         PoolClose],
        Raise (NameError "columns")).
Proof.
  assert ("event"%string ∉ ["events"; ""; "gkg"; "mentions"]%string) as Hkind.
  { intros H. repeat (apply elem_of_cons in H as [H | H]; [discriminate |]).
    by apply elem_of_nil in H. }
  destruct (unknown_table_kind
              parse_model sample_now sample_check sample_urlBuilder
              sample_worker sample_cameos sample_heads sample_heads
              sample_heads sample_heads (fun l => l)
              sample_worker_seq sample_iter_url true None
              (DList ["2016-10-19"; "2016-10-20"]%string) "event" false
              (Lst ["20161019"; "20161020"]%string)
              (Lst ["20161019234500"; "20161020234500"]%string)
              Hkind eq_refl eq_refl)
    as (H1 & _ & H2 & _ & _).
  - vm_compute. reflexivity.
  - vm_compute. reflexivity.
  - destruct (unknown_table_kind
                parse_model sample_now sample_check sample_urlBuilder
                sample_worker sample_cameos sample_heads sample_heads
                sample_heads sample_heads (fun l => l)
                sample_worker_seq sample_iter_url true
                (Some (Lst ["http://data.gdeltproject.org/gdeltv2/20161001234500.gkg.zip"%string]))
                (DList ["2016-10-19"; "2016-10-20"]%string) "event" false
                (Lst ["20161019"; "20161020"]%string)
                (Lst ["20161019234500"; "20161020234500"]%string)
                Hkind eq_refl eq_refl)
      as (_ & _ & _ & H3 & _).
    + vm_compute. reflexivity.
    + vm_compute. reflexivity.
    + split_and!; [exact H1 | exact (H2 eq_refl) |].
      rewrite (H3 _ eq_refl). vm_compute. reflexivity.
Defined.

(** ** The table handed back *)

Lemma filter_Forall_id {A} (P : A -> Prop) `{!forall x, Decision (P x)}
  (l : list A) :
  Forall P l -> filter P l = l.
Proof.
  induction 1 as [| x l Hx _ IH]; [reflexivity |].
  by rewrite filter_cons_True, IH.
Qed.

Lemma zip_with_lookup_insert (cameos : value -> value) (p : nat)
  (rws : list (list value)) (i : nat) (row : list value) :
  rws !! i = Some row ->
  zip_with (fun r v => insert_at 27 v r) rws
    (cameos <$> ((fun r => default VNaN (r !! p)) <$> rws)) !! i
  = Some (insert_at 27 (cameos (default VNaN (row !! p))) row).
Proof.
  intros Hrow. rewrite lookup_zip_with, Hrow. cbn [option_bind mbind].
  rewrite !list_lookup_fmap, Hrow. reflexivity.
Qed.

Section MoreFinish.

Variable cameos : value -> value.

(** X15. Table 'events', a downloaded table with rows, the header list as
    wide as the table, holding one 'EventCode' label, no
    'CAMEOCodeDescription' label and at least 27 labels: the table handed
    back has the header list with 'CAMEOCodeDescription' put in at
    position 27, the row labels and the number of rows of the download,
    and in every row the downloaded cells in their order with, at
    position 27, the description of that row's own 'EventCode' cell. *)
Theorem events_description_follows_event_code
  (version : Z) (cols : list value) (results : DataFrame) (p : nat)
  (Hwidth : length cols = length (columns results))
  (Hrows : df_len results <> 0%nat)
  (Hcode : cols !! p = Some (VStr "EventCode"))
  (Hone : forall j, cols !! j = Some (VStr "EventCode") -> j = p)
  (Hfresh : VStr "CAMEOCodeDescription" ∉ cols)
  (H27 : (27 <= length cols)%nat) :
  exists df,
    finish cameos version "events" (Some cols) results = Ok df
    /\ columns df = insert_at 27 (VStr "CAMEOCodeDescription") cols
    /\ index df = index results
    /\ df_len df = df_len results
    /\ forall i row,
         rows results !! i = Some row ->
         rows df !! i
         = Some (insert_at 27 (cameos (default VNaN (row !! p))) row).
Proof.
  assert (list_find (fun c => c = VStr "EventCode") cols
          = Some (p, VStr "EventCode")) as Hfind.
  { apply list_find_Some. split_and!; [done | done |].
    intros j y Hy Hlt ->. apply Hone in Hy. lia. }
  eexists. split.
  - unfold finish.
    change (bool_decide ("events"%string = "gkg"%string)) with false.
    change (bool_decide ("events"%string = "events"%string)) with true.
    cbn [andb]. unfold set_columns.
    rewrite (bool_decide_eq_true_2 _ Hwidth), bind_Ok.
    unfold df_len in *. cbn [rows].
    rewrite (bool_decide_eq_false_2 _ Hrows).
    unfold column. cbn [columns rows]. rewrite Hfind, bind_Ok.
    unfold df_insert. cbn [columns rows index].
    rewrite (bool_decide_eq_false_2 _ Hfresh).
    rewrite bool_decide_eq_false_2 by lia.
    reflexivity.
  - cbn [columns index rows]. split_and!; try reflexivity.
    + unfold df_len. cbn [rows].
      rewrite length_zip_with, !length_fmap. lia.
    + intros i row Hrow. by apply zip_with_lookup_insert.
Qed.

(** X16. Table 'events', a downloaded table with rows and a header list as
    wide as the table: without an 'EventCode' label the query ends in an
    [AttributeError]; with one, a 'CAMEOCodeDescription' label already
    there ends it in the cannot-insert [ValueError], and otherwise fewer
    than 27 labels end it in an [IndexError].  No table is handed back in
    any of the three cases. *)
Theorem events_description_failures
  (version : Z) (cols : list value) (results : DataFrame)
  (Hwidth : length cols = length (columns results))
  (Hrows : df_len results <> 0%nat) :
  (VStr "EventCode" ∉ cols ->
   finish cameos version "events" (Some cols) results
   = Raise (AttributeError "'DataFrame' object has no attribute"))
  /\ (VStr "EventCode" ∈ cols -> VStr "CAMEOCodeDescription" ∈ cols ->
      finish cameos version "events" (Some cols) results
      = Raise (ValueError "cannot insert, already exists"))
  /\ (VStr "EventCode" ∈ cols -> VStr "CAMEOCodeDescription" ∉ cols ->
      (length cols < 27)%nat ->
      finish cameos version "events" (Some cols) results
      = Raise (IndexError "index is out of bounds")).
Proof.
  assert (finish cameos version "events" (Some cols) results
          = (codes ← column "EventCode" (mkdf cols (index results) (rows results));
             df_insert 27 "CAMEOCodeDescription" (cameos <$> codes)
               (mkdf cols (index results) (rows results)))) as ->.
  { unfold finish.
    change (bool_decide ("events"%string = "gkg"%string)) with false.
    change (bool_decide ("events"%string = "events"%string)) with true.
    cbn [andb]. unfold set_columns.
    rewrite (bool_decide_eq_true_2 _ Hwidth), bind_Ok.
    unfold df_len in *. cbn [rows].
    by rewrite (bool_decide_eq_false_2 _ Hrows). }
  assert (VStr "EventCode" ∈ cols ->
          exists codes, column "EventCode"
                          (mkdf cols (index results) (rows results))
                        = Ok codes) as Hcol.
  { intros Hin. unfold column. cbn [columns].
    destruct (list_find (fun c => c = VStr "EventCode") cols)
      as [[q c] |] eqn:Hfind; [by eexists |].
    apply list_find_None in Hfind.
    rewrite Forall_forall in Hfind. by destruct (Hfind _ Hin). }
  split_and!.
  - intros Hno. unfold column. cbn [columns].
    destruct (list_find (fun c => c = VStr "EventCode") cols)
      as [[q c] |] eqn:Hfind; [| reflexivity].
    apply list_find_Some in Hfind as (Hq & -> & _).
    destruct Hno. by eapply list_elem_of_lookup_2.
  - intros Hin Hdup. destruct (Hcol Hin) as [codes ->].
    rewrite bind_Ok. unfold df_insert. cbn [columns].
    by rewrite (bool_decide_eq_true_2 _ Hdup).
  - intros Hin Hfresh Hshort. destruct (Hcol Hin) as [codes ->].
    rewrite bind_Ok. unfold df_insert. cbn [columns].
    rewrite (bool_decide_eq_false_2 _ Hfresh).
    by rewrite (bool_decide_eq_true_2 _ Hshort).
Qed.

(** X17. Version 1, table 'gkg', after a pooled download: the first row
    of the concatenated table becomes the header, whatever header list the
    dispatch chose, and is dropped; the rows left keep their order and
    carry the labels 1, 2, ...; a download of the header row alone ends in
    the no-data error. *)
Theorem v1_gkg_first_row_becomes_header
  (cols : option (list value)) (df : DataFrame)
  (header : list value) (rest : list (list value))
  (Hrows : rows df = header :: rest)
  (Hwidth : length header = length (columns df)) :
  finish cameos 1 "gkg" cols (reset_index df)
  = match rest with
    | [] => Raise no_data
    | _ => Ok (mkdf header (seqZ 1 (Z.of_nat (length rest))) rest)
    end.
Proof.
  assert (index (reset_index df) = 0 :: seqZ 1 (Z.of_nat (length rest)))
    as Hindex.
  { unfold reset_index, df_len. cbn [index]. rewrite Hrows. cbn [length].
    rewrite seqZ_cons by lia. f_equal. f_equal; lia. }
  assert (rows (reset_index df) = header :: rest) as Hrows' by exact Hrows.
  assert (columns (reset_index df) = columns df) as Hcolumns by reflexivity.
  unfold finish.
  change (bool_decide ("gkg"%string = "gkg"%string)) with true.
  change (bool_decide (1 = 1)) with true. cbn [andb].
  assert (ix0 (reset_index df) = Ok header) as ->.
  { unfold ix0. rewrite Hindex, Hrows'. reflexivity. }
  rewrite bind_Ok. unfold set_columns.
  rewrite Hcolumns, (bool_decide_eq_true_2 _ Hwidth), bind_Ok.
  unfold drop0. cbn [index rows columns]. rewrite Hindex, Hrows'.
  assert (0 ∈ 0 :: seqZ 1 (Z.of_nat (length rest))) as Hzero by constructor.
  rewrite (bool_decide_eq_true_2 _ Hzero).
  cbn [zip zip_with]. rewrite filter_cons_False by (cbn; lia).
  rewrite filter_Forall_id.
  2:{ apply Forall_forall. intros [i r] Hin. cbn.
      apply elem_of_zip_l, elem_of_seqZ in Hin. lia. }
  rewrite fst_zip, snd_zip by (rewrite length_seqZ; lia).
  rewrite bind_Ok. unfold df_len. cbn [rows].
  destruct rest as [| r rest'].
  - reflexivity.
  - rewrite bool_decide_eq_false_2 by discriminate.
    change (bool_decide ("gkg"%string = "events"%string)) with false.
    reflexivity.
Qed.

End MoreFinish.

(** X15 on a one-row table with the sample header list, whose 'EventCode'
    label stands at position 26. *)
Lemma events_description_follows_event_code_witness :
  exists df,
    finish sample_cameos 2 "events" (Some sample_heads)
      (mkdf (VInt <$> seqZ 0 30) [0] [replicate 30 (VStr "010")]) = Ok df
    /\ length (columns df) = 31%nat
    /\ rows df !! 0%nat
       = Some (replicate 27 (VStr "010") ++ VStr "description"
                 :: replicate 3 (VStr "010")).
Proof.
  destruct (events_description_follows_event_code sample_cameos 2 sample_heads
              (mkdf (VInt <$> seqZ 0 30) [0] [replicate 30 (VStr "010")])
              26%nat)
    as (df & Hdf & Hcols & _ & _ & Hrow).
  - reflexivity.
  - discriminate.
  - reflexivity.
  - intros j Hj.
    assert (j < 30)%nat as Hlt
      by (apply lookup_lt_Some in Hj; exact Hj).
    do 30 (destruct j as [| j];
           [first [reflexivity | vm_compute in Hj; discriminate Hj] |]).
    cbn in Hlt. lia.
  - intros Hin. apply list_elem_of_In in Hin. vm_compute in Hin.
    intuition discriminate.
  - vm_compute. lia.
  - exists df. split_and!.
    + exact Hdf.
    + rewrite Hcols. reflexivity.
    + rewrite (Hrow 0%nat _ eq_refl). reflexivity.
Defined.

(** X16 on a one-row table of thirty columns named without 'EventCode'. *)
Lemma events_description_failures_witness :
  finish sample_cameos 2 "events" (Some (VInt <$> seqZ 0 30))
    (mkdf (VInt <$> seqZ 0 30) [0] [replicate 30 (VStr "010")])
  = Raise (AttributeError "'DataFrame' object has no attribute").
Proof.
  refine (proj1 (events_description_failures sample_cameos 2
                   (VInt <$> seqZ 0 30)
                   (mkdf (VInt <$> seqZ 0 30) [0] [replicate 30 (VStr "010")])
                   eq_refl _) _).
  - discriminate.
  - intros Hin. apply list_elem_of_fmap in Hin as (n & Hn & _).
    discriminate Hn.
Defined.

(** X17 on a download of a header row and two data rows. *)
Lemma v1_gkg_first_row_becomes_header_witness :
  finish sample_cameos 1 "gkg" (Some sample_heads)
    (reset_index
       (mkdf [VInt 0; VInt 1] [0; 0; 1]
          [[VStr "DATE"; VStr "NUMARTS"];
           [VStr "20161019"; VStr "3"];
           [VStr "20161019"; VStr "7"]]))
  = Ok (mkdf [VStr "DATE"; VStr "NUMARTS"] [1; 2]
          [[VStr "20161019"; VStr "3"]; [VStr "20161019"; VStr "7"]]).
Proof.
  exact (v1_gkg_first_row_becomes_header sample_cameos (Some sample_heads)
           (mkdf [VInt 0; VInt 1] [0; 0; 1]
              [[VStr "DATE"; VStr "NUMARTS"];
               [VStr "20161019"; VStr "3"];
               [VStr "20161019"; VStr "7"]])
           [VStr "DATE"; VStr "NUMARTS"]
           [[VStr "20161019"; VStr "3"]; [VStr "20161019"; VStr "7"]]
           eq_refl eq_refl).
Defined.

(** ** Objects of an unsupported version *)

Section MoreObject.

Variable parse : string -> option datetime.
Variable now : datetime.
Variable dateInputCheck : DateSpec -> Z -> result unit.
Variable urlBuilder : string -> Z -> string -> string.
Variable mp_worker : string -> option string -> result DataFrame.
Variable cameos : value -> value.
Variables events1Heads events2Heads mentionsHeads gkgHeads : list value.
Variable completion : list string -> list string.
Variable mp_worker_seq : stamps -> option string -> result DataFrame.
Variable iter_url : string -> result (list string).
Variable table_is_literal : bool.


End MoreObject.


(** ** The quarter-hour grid of a range *)

Lemma concat_lookup_uniform {A} (w : nat) (ls : list (list A)) (q k : nat) :
  Forall (fun l => length l = w) ls -> (k < w)%nat ->
  concat ls !! (q * w + k)%nat = ls !! q ≫= (fun l => l !! k).
Proof.
  intros Hls Hk. revert q. induction Hls as [| x ls Hx _ IH]; intros q.
  - by rewrite lookup_nil.
  - cbn [concat]. destruct q as [| q].
    + rewrite lookup_app_l by (rewrite Hx; exact Hk). reflexivity.
    + rewrite lookup_app_r by (rewrite Hx; lia).
      replace (S q * w + k - length x)%nat with (q * w + k)%nat
        by (rewrite Hx; lia).
      exact (IH q).
Qed.

Lemma seconds_of_range_day (a : date) (q : Z) :
  seconds_of (midnight (date_of_days (datetime64_D a + q)))
  = seconds_of (midnight a) + 86400 * q.
Proof.
  destruct (date_of_days_spec (datetime64_D a + q)) as [_ Ho].
  revert Ho. generalize (date_of_days (datetime64_D a + q)). intros d Ho.
  unfold seconds_of, midnight, datetime64_D in *. cbn [dt_date hour minute second].
  lia.
Qed.

(** X19. Version 2 with coverage, a range [[a, b]] in chronological
    order: the timestamps are the gapless quarter-hour grid from 00:00:00
    of day [a] to 23:45:00 of day [b], stamp number [i] being the instant
    [15 * i] minutes after midnight of [a], also across the day breaks;
    so they are in chronological order and no timestamp occurs twice. *)
Theorem range_coverage_is_a_gapless_grid
  (parse : string -> option datetime) (now : datetime)
  (a b : string) (da db : datetime)
  (Hparse : parse_spec parse)
  (Ha : parse a = Some da) (Hb : parse b = Some db)
  (Hda : date_ok (dt_date da)) (Hdb : date_ok (dt_date db))
  (Hchrono : toordinal (dt_date da) <= toordinal (dt_date db)) :
  exists l,
    resolve parse now (DList [a; b]) 2 true = Ok (Arr l)
    /\ (forall i,
          0 <= i < 96 * (days_between (dt_date da) (dt_date db) + 1) ->
          exists dt,
            l !! Z.to_nat i = Some (strftime dt)
            /\ dt_ok dt
            /\ seconds_of dt
               = seconds_of (midnight (dt_date da)) + 15 * 60 * i)
    /\ NoDup l.
Proof.
  destruct (dateRanger_range parse Hparse a b da db Ha Hb Hda Hdb Hchrono)
    as [Hr Hok].
  assert (0 <= days_between (dt_date da) (dt_date db)) as Hn
    by (unfold days_between; lia).
  set (n := days_between (dt_date da) (dt_date db) + 1) in *.
  set (A := datetime64_D (dt_date da)) in *.
  set (days := date_of_days <$> seqZ A n) in *.
  assert (Z.of_nat (length days) = n) as Hlen.
  { unfold days. rewrite length_fmap, length_seqZ. lia. }
  assert (forall i, 0 <= i < 96 * n ->
            exists dt,
              concat (day_stamps <$> days) !! Z.to_nat i = Some (strftime dt)
              /\ dt_ok dt
              /\ seconds_of dt
                 = seconds_of (midnight (dt_date da)) + 15 * 60 * i) as Hgrid.
  { intros i Hi.
    assert (0 <= i / 96 < n /\ 0 <= i mod 96 < 96) as [Hq Hk] by div_lia.
    exists (quarter_of (date_of_days (A + i / 96)) (i mod 96)).
    split_and!.
    - replace (Z.to_nat i)
        with (Z.to_nat (i / 96) * 96 + Z.to_nat (i mod 96))%nat by div_lia.
      rewrite (concat_lookup_uniform 96)
        by (first [ apply Forall_fmap, Forall_forall; by intros
                  | lia ]).
      unfold days. rewrite !list_lookup_fmap.
      rewrite lookup_seqZ_lt by lia. rewrite Z2Nat.id by lia.
      cbn [fmap option_fmap option_map mbind option_bind].
      by apply day_stamps_lookup.
    - apply quarter_of_ok; [| exact Hk].
      apply (range_days_ok (dt_date da) (dt_date db)); [done | done |].
      unfold A, n, days_between, datetime64_D in *. lia.
    - rewrite seconds_of_quarter by exact Hk.
      unfold A. rewrite seconds_of_range_day. div_lia. }
  exists (concat (day_stamps <$> days)). split_and!.
  - unfold resolve. rewrite Hr, bind_Ok.
    rewrite gdeltRangeString_list_coverage by lia.
    rewrite (expand_days parse Hparse) by exact Hok. rewrite bind_Ok.
    destruct days; [simpl in Hlen; lia | reflexivity].
  - exact Hgrid.
  - apply NoDup_alt. intros i j x Hi Hj.
    assert (forall m, (m < length (concat (day_stamps <$> days)))%nat ->
              0 <= Z.of_nat m < 96 * n) as Hbound.
    { intros m. rewrite day_stamps_concat_length. lia. }
    destruct (Hgrid (Z.of_nat i)) as (di & Hli & Hoki & Hsi);
      [apply Hbound; by eapply lookup_lt_Some |].
    destruct (Hgrid (Z.of_nat j)) as (dj & Hlj & Hokj & Hsj);
      [apply Hbound; by eapply lookup_lt_Some |].
    rewrite Nat2Z.id in Hli, Hlj.
    assert (di = dj) as Heq.
    { assert (Some di = Some dj) as [= ->]; [| reflexivity].
      rewrite <- (parse_stamp parse Hparse di Hoki).
      rewrite <- (parse_stamp parse Hparse dj Hokj).
      congruence. }
    subst dj. lia.
Qed.

(** X19 at the range 2016-10-19 to 2016-10-20: stamp number 100 is
    01:00:00 of the second day. *)
Lemma range_coverage_is_a_gapless_grid_witness :
  exists l,
    resolve parse_model sample_now
      (DList ["2016-10-19"; "2016-10-20"]%string) 2 true = Ok (Arr l)
    /\ l !! 100%nat = Some "20161020010000"%string
    /\ NoDup l.
Proof.
  destruct (range_coverage_is_a_gapless_grid parse_model sample_now
              "2016-10-19" "2016-10-20" (midnight (mkdate 2016 10 19))
              (midnight (mkdate 2016 10 20)) parse_model_spec
              eq_refl eq_refl)
    as (l & Hl & _ & Hnodup).
  - vm_compute. intuition discriminate.
  - vm_compute. intuition discriminate.
  - vm_compute. discriminate.
  - exists l. split_and!; [exact Hl | | exact Hnodup].
    assert (Ok (Arr l)
            = resolve parse_model sample_now
                (DList ["2016-10-19"; "2016-10-20"]%string) 2 true) as Heq
      by (symmetry; exact Hl).
    vm_compute in Heq. injection Heq as ->. reflexivity.
Defined.
